(** * holes2/electrical: the KiCad schematic editing helpers

    A shallow embedding of [kicad_utils.py] and [schematic_editor.py].
    Both files define a class [SchematicEditor] over a [kiutils] schematic;
    each class is a module here.  Methods are computations in a state and
    exception monad: the state is the editor object together with the part
    of the outside world a method can touch (files, standard output, the
    source of fresh uuids), and a Python [raise] is the [Raised] outcome.

    Numbers are Python floats, that is binary64, Rocq's primitive [float]. *)

From Stdlib Require Import Ascii String Floats QArith Qabs.
From stdpp Require Import gmap strings list fin_maps pretty.

Open Scope string_scope.

(** ** Outcomes of Python calls *)

Inductive exn :=
| ValueError (msg : string)            (* raise ValueError(msg) *)
| UnpackError (expected got : nat)     (* ValueError of [a, b = xs] when len(xs) is not 2 *)
| Exception_ (msg : string)            (* raise Exception(msg), as kiutils does *)
| OSError                              (* a failing file-system call *)
| IndexError                           (* kiutils parsing a file that holds nothing *)
| ZeroDivisionError                    (* x / 0.0 *)
| OverflowError.                       (* an infinite float to int, a huge int to float *)

Inductive outcome (A : Type) :=
| Returned (a : A)
| Raised (e : exn).
Arguments Returned {A} a.
Arguments Raised {A} e.

Definition raises {A} (o : outcome A) : Prop := ∃ e, o = Raised e.

(** [py Σ A]: a computation over the state [Σ] that returns an [A] or
    raises; the state reached when the exception left is kept, as in Python. *)
Definition py (Σ A : Type) : Type := Σ → outcome A * Σ.

Global Instance py_ret {Σ} : MRet (py Σ) := λ A a σ, (Returned a, σ).
Global Instance py_bind {Σ} : MBind (py Σ) := λ A B f m σ,
  match m σ with
  | (Returned a, σ') => f a σ'
  | (Raised e, σ') => (Raised e, σ')
  end.

Definition raise {Σ A} (e : exn) : py Σ A := λ σ, (Raised e, σ).
Definition gets {Σ A} (f : Σ → A) : py Σ A := λ σ, (Returned (f σ), σ).
Definition modify {Σ} (f : Σ → Σ) : py Σ unit := λ σ, (Returned (), f σ).
Definition lift_outcome {Σ A} (o : outcome A) : py Σ A := λ σ, (o, σ).

(** ** The outside world *)

Module kiutils.

Module Position.
Record t := mk { X : float; Y : float; angle : option float }.
End Position.

Module Property.
Record t := mk { key : string; value : string; position : Position.t }.
End Property.

Module SchematicSymbol.
Record t := mk {
  libraryIdentifier : string;
  position : Position.t;
  unit : Z;
  uuid : string;
  properties : list Property.t
}.
End SchematicSymbol.

Module DrawnWire.
Record t := mk { points : list Position.t; uuid : string }.
End DrawnWire.

Module Junction.
Record t := mk { position : Position.t; diameter : float; uuid : string }.
End Junction.

Module Label.
Record t := mk { text : string; position : Position.t; uuid : string }.
End Label.

Module GlobalLabel.
Record t := mk { text : string; shape : string; position : Position.t; uuid : string }.
End GlobalLabel.

Module Schematic.
Record t := mk {
  schematicSymbols : list SchematicSymbol.t;
  wires : list DrawnWire.t;
  junctions : list Junction.t;
  labels : list Label.t;
  globalLabels : list GlobalLabel.t
}.

Definition empty : t := mk [] [] [] [] [].
End Schematic.

End kiutils.
Import kiutils.

(** What a file holds: the S-expression of a schematic (its text is the
    library's business), or nothing yet when it was opened for writing and
    not written. *)
Inductive content :=
| Truncated
| Serialized (sch : Schematic.t).

Record world := World {
  files : gmap string content;
  stdout : list string;
  uuid_source : nat → string;   (* the uuids that uuid4() will draw, in order *)
  uuid_drawn : nat;
  io_faults : option nat        (* file-system calls that succeed before the
                                   device fails; [None]: it never fails *)
}.

Definition set_files (f : gmap string content → gmap string content) (w : world) : world :=
  World (f (files w)) (stdout w) (uuid_source w) (uuid_drawn w) (io_faults w).

(** print(line) *)
Definition print (line : string) : py world unit :=
  modify (λ w, World (files w) (stdout w ++ [line]) (uuid_source w) (uuid_drawn w) (io_faults w)).

(** str(uuid.uuid4()) *)
Definition uuid4 : py world string := λ w,
  (Returned (uuid_source w (uuid_drawn w)),
   World (files w) (stdout w) (uuid_source w) (S (uuid_drawn w)) (io_faults w)).

(** Every file-system call passes here first. *)
Definition io_call : py world unit := λ w,
  match io_faults w with
  | None => (Returned (), w)
  | Some 0 => (Raised OSError, w)
  | Some (S n) => (Returned (), World (files w) (stdout w) (uuid_source w) (uuid_drawn w) (Some n))
  end.

(** open(path, 'w'): creates the file or empties it. *)
Definition open_w (path : string) : py world unit :=
  io_call;; modify (set_files <[path := Truncated]>).

(** outfile.write(data) on a file opened by [open_w]. *)
Definition write (path : string) (data : content) : py world unit :=
  io_call;; modify (set_files <[path := data]>).

(** Schematic.to_file(filepath): [with open(filepath, 'w') as outfile:
    outfile.write(self.to_sexpr())]. *)
Definition to_file (sch : Schematic.t) (filepath : string) : py world unit :=
  open_w filepath;; write filepath (Serialized sch).

(** Schematic.from_file(filepath): the path must be a file; it is read and
    parsed, and the parser fails with IndexError on a file that holds
    nothing. *)
Definition from_file (filepath : string) : py world Schematic.t :=
  fs ← gets files;
  match fs !! filepath with
  | None => raise (Exception_ "Given path is not a file!")
  | Some data =>
      io_call;;
      match data with
      | Serialized sch => mret sch
      | Truncated => raise IndexError
      end
  end.

(** ** pathlib *)

Module pathlib.

(** A parsed path: the text up to and including the last separator, and
    the final component. *)
Record Path := mk { parent : string; name : string }.

(** str(path) *)
Definition str (p : Path) : string := parent p ++ name p.

(** name.rfind(c) *)
Fixpoint rfind (c : ascii) (s : string) : option nat :=
  match s with
  | EmptyString => None
  | String a s' =>
      match rfind c s' with
      | Some i => Some (S i)
      | None => if decide (a = c) then Some 0 else None
      end
  end.

(** c in s *)
Definition contains (c : ascii) (s : string) : bool := bool_decide (is_Some (rfind c s)).

(** PurePath.suffix on the final component: [i = name.rfind('.')], the
    text from [i] on when [0 < i < len(name) - 1], else the empty string. *)
Definition suffix (name : string) : string :=
  match rfind "."%char name with
  | Some i =>
      if bool_decide (0 < i ∧ i < String.length name - 1)
      then String.substring i (String.length name - i) name
      else ""
  | None => ""
  end.

(** The final component without its suffix: [name] when the suffix is
    empty, else [name[:-len(old_suffix)]]. *)
Definition drop_suffix (name : string) : string :=
  let old_suffix := suffix name in
  if bool_decide (old_suffix = "") then name
  else String.substring 0 (String.length name - String.length old_suffix) name.

(** PurePath.with_suffix(suffix) *)
Definition with_suffix (p : Path) (sfx : string) : outcome Path :=
  if contains "/"%char sfx then Raised (ValueError "Invalid suffix")
  else if bool_decide (sfx ≠ "" ∧ String.get 0 sfx ≠ Some "."%char ∨ sfx = ".")
  then Raised (ValueError "Invalid suffix")
  else if bool_decide (name p = "") then Raised (ValueError "path has an empty name")
  else Returned (mk (parent p) (drop_suffix (name p) ++ sfx)).

End pathlib.
Import pathlib.

(** f"{n}" for a non-negative int *)
Definition fmt_int (n : nat) : string := pretty n.

(** ** Editing sessions *)

(** An editor object [self] of class [E] and the world around it. *)
Record session (E : Type) := Session { self : E; env : world }.
Arguments Session {E} self env.
Arguments self {E} s.
Arguments env {E} s.

Definition in_env {E A} (m : py world A) : py (session E) A := λ σ,
  let '(o, w) := m (env σ) in (o, Session (self σ) w).
Definition get_self {E} : py (session E) E := gets self.
Definition set_self {E} (f : E → E) : py (session E) unit :=
  modify (λ σ, Session (f (self σ)) (env σ)).

(** The reference designator a symbol carries: some property of it has key
    "Reference" and that value. *)
Definition has_reference (reference : string) (symbol : SchematicSymbol.t) : Prop :=
  Exists (λ prop, Property.key prop = "Reference" ∧ Property.value prop = reference)
         (SchematicSymbol.properties symbol).

Global Instance has_reference_dec reference symbol : Decision (has_reference reference symbol).
Proof. unfold has_reference. apply _. Defined.

(** 2.54, the nearest binary64 value *)
Definition mm_2_54 : float := 0x1.451eb851eb852p+1%float.

(** ** Python numbers *)

(** x / y on floats *)
Definition float_div (x y : float) : outcome float :=
  if (y =? 0)%float then Raised ZeroDivisionError else Returned (x / y)%float.

(** The integer nearest to m * 2^e, the even one of the two when m * 2^e
    lies halfway between them. *)
Definition round_half_even (m e : Z) : Z :=
  match e with
  | Zneg p =>
      let d := (2 ^ Zpos p)%Z in
      let q := (m / d)%Z in
      match (2 * (m mod d) ?= d)%Z with
      | Lt => q
      | Gt => (q + 1)%Z
      | Eq => if Z.even q then q else (q + 1)%Z
      end
  | _ => (m * 2 ^ e)%Z
  end.

(** round(x) for a float x and no ndigits: an int, by rounding half to
    even; NaN and the infinities have none. *)
Definition py_round (x : float) : outcome Z :=
  match Prim2SF x with
  | S754_zero _ => Returned 0%Z
  | S754_finite s m e => Returned (round_half_even (if s then Zneg m else Zpos m) e)
  | S754_infinity _ => Raised OverflowError
  | S754_nan => Raised (ValueError "cannot convert float NaN to integer")
  end.

(** The conversion of an int operand to float, as in int * float: the
    nearest binary64, ties to even; an int that would round to 2^1024 or
    beyond is too large. *)
Definition float_of_int (z : Z) : outcome float :=
  if bool_decide (Z.abs z < 2 ^ 1024 - 2 ^ 970)%Z
  then Returned (SF2Prim (binary_normalize prec emax z 0 false))
  else Raised OverflowError.

(** The number a finite float stands for: mantissa times 2^exponent. *)
Definition dyadic (m e : Z) : Q :=
  match e with
  | Zneg p => Qmake m (2 ^ p)
  | _ => inject_Z (m * 2 ^ e)
  end.

Definition float_value (x : float) : option Q :=
  match Prim2SF x with
  | S754_zero _ => Some 0%Q
  | S754_finite s m e => Some (dyadic (if s then Zneg m else Zpos m) e)
  | _ => None
  end.

(** * kicad_utils.py *)

Module kicad_utils.

Record SchematicEditor := mk { path : Path; sch : Schematic.t }.

Abbreviation method A := (py (session SchematicEditor) A).

Definition set_sch (f : Schematic.t → Schematic.t) : method unit :=
  set_self (λ ed, mk (path ed) (f (sch ed))).

(** SchematicEditor(path) *)
Definition __init__ (p : Path) : py world SchematicEditor :=
  s ← from_file (str p);
  mret (mk p s).

Definition save (backup : bool) : method SchematicEditor :=
  ed ← get_self;
  (if backup then
     backup_path ← lift_outcome (with_suffix (path ed) ".bak.kicad_sch");
     in_env (to_file (sch ed) (str backup_path))
   else mret ());;
  in_env (to_file (sch ed) (str (path ed)));;
  get_self.

Definition add_symbol (library_ref reference : string) (x y orientation : float) (unit : Z)
    : method SchematicSymbol.t :=
  u ← in_env uuid4;
  let ref_prop := Property.mk "Reference" reference (Position.mk x (y - mm_2_54)%float None) in
  let symbol :=
    SchematicSymbol.mk library_ref (Position.mk x y (Some orientation)) unit u [ref_prop] in
  set_sch (λ s, Schematic.mk (Schematic.schematicSymbols s ++ [symbol]) (Schematic.wires s)
                   (Schematic.junctions s) (Schematic.labels s) (Schematic.globalLabels s));;
  mret symbol.

Definition add_wire (points : list (float * float)) : method DrawnWire.t :=
  if bool_decide (length points < 2) then raise (ValueError "Wire needs at least 2 points")
  else
    let pts := (λ '(x, y), Position.mk x y None) <$> points in
    u ← in_env uuid4;
    let wire := DrawnWire.mk pts u in
    set_sch (λ s, Schematic.mk (Schematic.schematicSymbols s) (Schematic.wires s ++ [wire])
                     (Schematic.junctions s) (Schematic.labels s) (Schematic.globalLabels s));;
    mret wire.

Definition add_junction (x y : float) : method Junction.t :=
  u ← in_env uuid4;
  let junction := Junction.mk (Position.mk x y None) 0%float u in
  set_sch (λ s, Schematic.mk (Schematic.schematicSymbols s) (Schematic.wires s)
                   (Schematic.junctions s ++ [junction]) (Schematic.labels s)
                   (Schematic.globalLabels s));;
  mret junction.

Definition add_label (text : string) (x y orientation : float) (global_label : bool)
    : method (Label.t + GlobalLabel.t) :=
  u ← in_env uuid4;
  if global_label then
    let label := GlobalLabel.mk text "input" (Position.mk x y (Some orientation)) u in
    set_sch (λ s, Schematic.mk (Schematic.schematicSymbols s) (Schematic.wires s)
                     (Schematic.junctions s) (Schematic.labels s)
                     (Schematic.globalLabels s ++ [label]));;
    mret (inr label)
  else
    let label := Label.mk text (Position.mk x y (Some orientation)) u in
    set_sch (λ s, Schematic.mk (Schematic.schematicSymbols s) (Schematic.wires s)
                     (Schematic.junctions s) (Schematic.labels s ++ [label])
                     (Schematic.globalLabels s));;
    mret (inl label).

(** The symbol object found is its place in [sch.schematicSymbols] and the
    value there: the first symbol, in document order, one of whose
    properties is the reference looked for. *)
Definition find_symbol (reference : string) : method (option (nat * SchematicSymbol.t)) :=
  ed ← get_self;
  mret (list_find (has_reference reference) (Schematic.schematicSymbols (sch ed))).

Definition get_symbol_position (reference : string) : method (option (float * float)) :=
  symbol ← find_symbol reference;
  match symbol with
  | Some (_, s) =>
      mret (Some (Position.X (SchematicSymbol.position s), Position.Y (SchematicSymbol.position s)))
  | None => mret None
  end.

(** symbol.position.X = x; symbol.position.Y = y *)
Definition moved (x y : float) (s : SchematicSymbol.t) : SchematicSymbol.t :=
  SchematicSymbol.mk (SchematicSymbol.libraryIdentifier s)
    (Position.mk x y (Position.angle (SchematicSymbol.position s)))
    (SchematicSymbol.unit s) (SchematicSymbol.uuid s) (SchematicSymbol.properties s).

Definition move_symbol (reference : string) (x y : float) : method SchematicEditor :=
  symbol ← find_symbol reference;
  match symbol with
  | Some (i, s) =>
      set_sch (λ d, Schematic.mk (<[i := moved x y s]> (Schematic.schematicSymbols d))
                       (Schematic.wires d) (Schematic.junctions d) (Schematic.labels d)
                       (Schematic.globalLabels d))
  | None => mret ()
  end;;
  get_self.

(** (start[0] + end[0]) / 2 *)
Definition midpoint (a b : float) : float := ((a + b) / 2)%float.

Definition connect_points (start end_ : float * float) (label : option string)
    : method SchematicEditor :=
  add_wire [start; end_];;
  match label with
  | Some text =>
      if bool_decide (text = "") then mret ()
      else add_label text (midpoint start.1 end_.1) (midpoint start.2 end_.2) 0%float false;;
           mret ()
  | None => mret ()
  end;;
  get_self.

(** The body is [pass]. *)
Definition create_bus (points : list (float * float)) (name : string) : method unit :=
  mret ().

(** round(value / grid) * grid; the default grid is 2.54. *)
Definition grid_align (value grid : float) : method float :=
  quotient ← lift_outcome (float_div value grid);
  n ← lift_outcome (py_round quotient);
  n_as_float ← lift_outcome (float_of_int n);
  mret (n_as_float * grid)%float.

End kicad_utils.

(** ** str methods *)

(** s.split(sep) for a one-character separator: the pieces between the
    occurrences of [sep], one more than there are occurrences. *)
Fixpoint split (sep : ascii) (s : string) : list string :=
  match s with
  | EmptyString => [""]
  | String c s' =>
      if decide (c = sep) then "" :: split sep s'
      else match split sep s' with
           | piece :: pieces => String c piece :: pieces
           | [] => [String c ""]
           end
  end.

(** a, b = xs *)
Definition unpack2 (xs : list string) : outcome (string * string) :=
  match xs with
  | [a; b] => Returned (a, b)
  | _ => Raised (UnpackError 2 (length xs))
  end.

(** s.replace(c, '') for a one-character [c] *)
Fixpoint remove_char (c : ascii) (s : string) : string :=
  match s with
  | EmptyString => ""
  | String a s' => if decide (a = c) then remove_char c s' else String a (remove_char c s')
  end.

Definition double_quote : ascii := ascii_of_nat 34.

(** * schematic_editor.py *)

Module schematic_editor.

(** [components] maps a reference designator to a symbol object, which is
    a place in [sch.schematicSymbols]; [nets], documented as a map of net
    names to net numbers, is the editor's only record of nets. *)
Record SchematicEditor := mk {
  path : Path;
  sch : Schematic.t;
  backup_counter : nat;
  components : gmap string nat;
  nets : gmap string Z
}.

Abbreviation method A := (py (session SchematicEditor) A).

(** What a method hands back where the caller may expect pins: Python's
    None, or a sequence of (reference, pin name) pairs. *)
Inductive value :=
| None_
| Pins (pins : list (string * string)).

Definition _get_symbol_reference (symbol : SchematicSymbol.t) : option string :=
  match list_find (λ prop, Property.key prop = "Reference") (SchematicSymbol.properties symbol) with
  | Some (_, prop) => Some (remove_char double_quote (Property.value prop))
  | None => None
  end.

(** The dict built by the loop of _build_component_map: a later symbol
    replaces an earlier one of the same reference; a symbol whose reference
    is missing or empty is skipped. *)
Definition component_map (symbols : list SchematicSymbol.t) : gmap string nat :=
  foldl (λ m '(i, symbol),
           match _get_symbol_reference symbol with
           | Some ref => if bool_decide (ref = "") then m else <[ref := i]> m
           | None => m
           end)
        ∅ (imap pair symbols).

Definition _build_component_map : method unit :=
  set_self (λ ed, mk (path ed) (sch ed) (backup_counter ed)
                     (component_map (Schematic.schematicSymbols (sch ed))) (nets ed)).

Definition _build_net_map : method unit :=
  set_self (λ ed, mk (path ed) (sch ed) (backup_counter ed) (components ed) ∅).

(** SchematicEditor(schematic_path) *)
Definition __init__ (p : Path) : py world SchematicEditor := λ w,
  match from_file (str p) w with
  | (Returned s, w') =>
      let '(o, σ) := (_build_component_map;; _build_net_map) (Session (mk p s 0 ∅ ∅) w') in
      (match o with Returned _ => Returned (self σ) | Raised e => Raised e end, env σ)
  | (Raised e, w') => (Raised e, w')
  end.

(** The pins of a symbol with their positions: the list stays empty. *)
Definition _get_symbol_pins (symbol : SchematicSymbol.t) : list (string * Position.t) :=
  let pins := [] in
  pins.

Definition backup : method unit :=
  set_self (λ ed, mk (path ed) (sch ed) (backup_counter ed + 1) (components ed) (nets ed));;
  ed ← get_self;
  backup_path ← lift_outcome
    (with_suffix (path ed) (".bak" ++ fmt_int (backup_counter ed) ++ ".kicad_sch"));
  in_env (to_file (sch ed) (str backup_path));;
  in_env (print ("Backup saved to: " ++ str backup_path)).

Definition save : method unit :=
  ed ← get_self;
  in_env (to_file (sch ed) (str (path ed)));;
  in_env (print ("Schematic saved to: " ++ str (path ed))).

Definition reload : method unit :=
  ed ← get_self;
  s ← in_env (from_file (str (path ed)));
  set_self (λ ed, mk (path ed) s (backup_counter ed) (components ed) (nets ed));;
  _build_component_map;;
  _build_net_map;;
  in_env (print "Schematic reloaded").

Definition connect_pins (pin1 pin2 : string) : method unit :=
  '(ref1, pinname1) ← lift_outcome (unpack2 (split "."%char pin1));
  '(ref2, pinname2) ← lift_outcome (unpack2 (split "."%char pin2));
  in_env (print ("Connecting " ++ pin1 ++ " to " ++ pin2)).

Definition connect_i2c (master slave : string) : method unit :=
  in_env (print ("Connecting I2C from " ++ master ++ " to " ++ slave));;
  connect_pins (master ++ ".GPIO2") (slave ++ ".SDA");;
  connect_pins (master ++ ".GPIO3") (slave ++ ".SCL").

Definition list_unconnected : method value :=
  in_env (print "Unconnected pins:");;
  mret None_.

Definition _find_components_with_pin (pin_names : list string) : list string := [].

Definition wire_stepper_driver (driver_ref step_pin dir_pin enable_pin : string) : method unit :=
  in_env (print ("Wiring stepper driver " ++ driver_ref));;
  connect_pins (driver_ref ++ ".VDD") "+3V3";;
  connect_pins (driver_ref ++ ".VMOT") "StepperPower1.1";;
  connect_pins (driver_ref ++ ".GND") "GND";;
  connect_pins (driver_ref ++ ".STEP") step_pin;;
  connect_pins (driver_ref ++ ".DIR") dir_pin;;
  connect_pins (driver_ref ++ ".~ENABLE") enable_pin;;
  connect_pins (driver_ref ++ ".~RESET") "+3V3";;
  connect_pins (driver_ref ++ ".~SLEEP") "+3V3".

End schematic_editor.

(** * Sample sessions

    The document of example_add_led.py: an LED D1 at (100, 100) and its
    resistor R1 at (100, 90), here turned by 90 degrees, in holes.kicad_sch. *)

Definition holes_path : Path := pathlib.mk "holes/" "holes.kicad_sch".

Definition D1 : SchematicSymbol.t :=
  SchematicSymbol.mk "Device:LED" (Position.mk 100 100 (Some 0%float)) 1 "uuid-d1"
    [Property.mk "Reference" "D1" (Position.mk 100 0x1.85d70a3d70a3dp+6 None)].

Definition R1 : SchematicSymbol.t :=
  SchematicSymbol.mk "Device:R" (Position.mk 100 90 (Some 90%float)) 1 "uuid-r1"
    [Property.mk "Reference" "R1" (Position.mk 100 0x1.5dd70a3d70a3dp+6 None)].

Definition led_doc : Schematic.t := Schematic.mk [D1; R1] [] [] [] [].

(** 24.13, 22.86 and 25.4 as binary64: coordinates near the grid point
    9 * 2.54. *)
Definition x_24_13 : float := 0x1.82147ae147ae1p+4%float.
Definition x_22_86 : float := 0x1.6dc28f5c28f5cp+4%float.
Definition x_25_4 : float := 0x1.9666666666666p+4%float.

(** The same document before R1 was added, as a previous save left it. *)
Definition old_doc : Schematic.t := Schematic.mk [D1] [] [] [] [].

(** A source of distinct uuids. *)
Fixpoint sample_uuid (n : nat) : string :=
  match n with
  | 0 => "uuid"
  | S n' => String "u" (sample_uuid n')
  end.

Definition quiet_world (fs : gmap string content) (faults : option nat) : world :=
  World fs [] sample_uuid 0 faults.

(** On disk: the previous save of the document. *)
Definition disk : gmap string content := {[ str holes_path := Serialized old_doc ]}.

Definition led_session : session kicad_utils.SchematicEditor :=
  Session (kicad_utils.mk holes_path led_doc) (quiet_world disk None).

(** An editor as its constructor builds it from the file of [led_doc]. *)
Definition led_editor : schematic_editor.SchematicEditor :=
  schematic_editor.mk holes_path led_doc 0 {[ "D1" := 0; "R1" := 1 ]} ∅.

Definition led_editing : session schematic_editor.SchematicEditor :=
  Session led_editor (quiet_world {[ str holes_path := Serialized led_doc ]} None).

(** * kicad_utils.py: the functions after the class *)

Module convenience.

(** 7.46, 5, 10 and 1.27 as binary64 *)
Definition mm_7_46 : float := 0x1.dd70a3d70a3d7p+2%float.
Definition mm_1_27 : float := 0x1.451eb851eb852p+0%float.

(** r1_value and r2_value are accepted and not used. *)
Definition create_resistor_divider (x y : float) (r1_value r2_value prefix : string)
    : kicad_utils.method (SchematicSymbol.t * SchematicSymbol.t) :=
  r1 ← kicad_utils.add_symbol "Device:R" (prefix ++ "1") x y 0 1;
  r2 ← kicad_utils.add_symbol "Device:R" (prefix ++ "2") x (y + 10)%float 0 1;
  kicad_utils.add_wire [(x, (y + mm_2_54)%float); (x, (y + mm_7_46)%float)];;
  kicad_utils.add_junction x (y + 5)%float;;
  mret (r1, r2).

(** value is accepted and not used. *)
Definition create_bypass_cap (x y : float) (value ref : string)
    : kicad_utils.method SchematicSymbol.t :=
  cap ← kicad_utils.add_symbol "Device:C" ref x y 90 1;
  kicad_utils.add_label "VCC" (x - mm_2_54)%float y 0 true;;
  kicad_utils.add_label "GND" (x + mm_2_54)%float y 0 true;;
  kicad_utils.add_wire [((x - mm_2_54)%float, y); ((x - mm_1_27)%float, y)];;
  kicad_utils.add_wire [((x + mm_1_27)%float, y); ((x + mm_2_54)%float, y)];;
  mret cap.

(** The body is [pass]. *)
Definition connect_i2c_bus (devices : list (string * string * string))
    : kicad_utils.method unit :=
  mret ().

(** The local symbol_ref of create_connector after its if/elif chain:
    [None] when no branch has assigned it. *)
Definition connector_symbol_ref (conn_type : string) (pin_count : Z) : option string :=
  if bool_decide (conn_type = "pin_header") then
    if bool_decide (pin_count = 2%Z) then Some "Connector:Conn_01x02_Pin"
    else if bool_decide (pin_count = 3%Z) then Some "Connector:Conn_01x03_Pin"
    else None
  else if bool_decide (conn_type = "socket_header") then
    if bool_decide (pin_count = 2%Z) then Some "Connector:Conn_01x02_Socket"
    else None
  else None.

(** Reading a local that no branch has bound. *)
Inductive unbound := UnboundLocalError (name : string).

(** The return statement reads symbol_ref before it calls add_symbol. *)
Definition create_connector (conn_type : string) (pin_count : Z) (x y : float) (ref : string)
    (σ : session kicad_utils.SchematicEditor)
    : (unbound + outcome SchematicSymbol.t) * session kicad_utils.SchematicEditor :=
  match connector_symbol_ref conn_type pin_count with
  | Some symbol_ref =>
      let '(o, σ') := kicad_utils.add_symbol symbol_ref ref x y 0 1 σ in (inr o, σ')
  | None => (inl (UnboundLocalError "symbol_ref"), σ)
  end.

End convenience.

(** * Repetition *)

(** Calling a method n times in a row. *)
Fixpoint times {Σ} (n : nat) (m : py Σ unit) : py Σ unit :=
  match n with
  | 0 => mret ()
  | S n' => m;; times n' m
  end.

(** * example_add_led.py *)

(** Calls on an editor object held by a script: the script goes on with the
    result and the editor as the calls leave it. *)
Definition run_on {E A} (ed : E) (m : py (session E) A) : py world (A * E) := λ w,
  let '(o, σ) := m (Session ed w) in
  (match o with
   | Returned a => Returned (a, self σ)
   | Raised e => Raised e
   end, env σ).

Module example_add_led.

Definition schematic : Path :=
  pathlib.mk "/Users/phil/dev/holes2/electrical/holes/" "holes.kicad_sch".

(** 92.54, 97.46, 87.46 and 102.54 as binary64 *)
Definition y_92_54 : float := 0x1.7228f5c28f5c3p+6%float.
Definition y_97_46 : float := 0x1.85d70a3d70a3dp+6%float.
Definition y_87_46 : float := 0x1.5dd70a3d70a3dp+6%float.
Definition y_102_54 : float := 0x1.9a28f5c28f5c3p+6%float.

(** The calls of the script on its editor sch, from the first add_symbol
    to save(). *)
Definition edits : py (session kicad_utils.SchematicEditor) kicad_utils.SchematicEditor :=
  kicad_utils.add_symbol "Device:LED" "D1" 100 100 0 1;;
  kicad_utils.add_symbol "Device:R" "R1" 100 90 0 1;;
  kicad_utils.add_wire [(100, y_92_54); (100, y_97_46)]%float;;
  kicad_utils.add_label "VCC" 100 y_87_46 0 true;;
  kicad_utils.add_label "GND" 100 y_102_54 0 true;;
  kicad_utils.add_wire [(100, y_87_46); (100, y_87_46)]%float;;
  kicad_utils.add_wire [(100, y_102_54); (100, y_102_54)]%float;;
  kicad_utils.save true.

Definition main : py world (kicad_utils.SchematicEditor * kicad_utils.SchematicEditor) :=
  sch ← kicad_utils.__init__ schematic;
  run_on sch edits.

End example_add_led.

(** * Properties *)

(** ** Running methods *)

Ltac py_unfold :=
  unfold mbind, py_bind, mret, py_ret, get_self, set_self, gets, modify, raise,
    lift_outcome, in_env in *.

(** Settles a closed decidable proposition by evaluation. *)
Ltac by_compute := apply (bool_decide_unpack _); vm_compute; exact I.

Lemma first_match_Some (reference : string) (symbols : list SchematicSymbol.t) i s :
  symbols !! i = Some s →
  has_reference reference s →
  (∀ j s', j < i → symbols !! j = Some s' → ¬ has_reference reference s') →
  list_find (has_reference reference) symbols = Some (i, s).
Proof.
  intros Hi Hs Hleast. apply list_find_Some. split_and!; [done..|].
  intros j s' Hj Hlt. by apply (Hleast j s').
Qed.

(** ** kicad_utils.move_symbol *)

(** C10.  When no symbol carries the reference, move_symbol raises nothing,
    returns the editor and leaves the whole session as it was, so every
    symbol, wire, junction and label is unchanged.  When a symbol carries
    it, the first such symbol in document order gets X = x and Y = y and
    keeps its angle, identifier, unit, uuid and properties; the other
    symbols, the wires, junctions and labels, the path and the world are
    unchanged, and the editor is returned. *)
Theorem move_symbol_frame (reference : string) (x y : float)
    (σ : session kicad_utils.SchematicEditor) :
  let d := kicad_utils.sch (self σ) in
  (Forall (λ s, ¬ has_reference reference s) (Schematic.schematicSymbols d) →
     kicad_utils.move_symbol reference x y σ = (Returned (self σ), σ))
  ∧ (∀ i s,
       Schematic.schematicSymbols d !! i = Some s →
       has_reference reference s →
       (∀ j s', j < i → Schematic.schematicSymbols d !! j = Some s' →
                ¬ has_reference reference s') →
       ∃ ed',
         kicad_utils.move_symbol reference x y σ = (Returned ed', Session ed' (env σ))
         ∧ kicad_utils.path ed' = kicad_utils.path (self σ)
         ∧ Schematic.schematicSymbols (kicad_utils.sch ed')
           = <[i := kicad_utils.moved x y s]> (Schematic.schematicSymbols d)
         ∧ SchematicSymbol.position (kicad_utils.moved x y s)
           = Position.mk x y (Position.angle (SchematicSymbol.position s))
         ∧ SchematicSymbol.libraryIdentifier (kicad_utils.moved x y s)
           = SchematicSymbol.libraryIdentifier s
         ∧ SchematicSymbol.unit (kicad_utils.moved x y s) = SchematicSymbol.unit s
         ∧ SchematicSymbol.uuid (kicad_utils.moved x y s) = SchematicSymbol.uuid s
         ∧ SchematicSymbol.properties (kicad_utils.moved x y s) = SchematicSymbol.properties s
         ∧ Schematic.wires (kicad_utils.sch ed') = Schematic.wires d
         ∧ Schematic.junctions (kicad_utils.sch ed') = Schematic.junctions d
         ∧ Schematic.labels (kicad_utils.sch ed') = Schematic.labels d
         ∧ Schematic.globalLabels (kicad_utils.sch ed') = Schematic.globalLabels d).
Proof.
  intros d. subst d. destruct σ as [[p d] w]. simpl. split.
  - intros Hnone.
    pose proof (proj2 (list_find_None (has_reference reference) _) Hnone) as Hfind.
    unfold kicad_utils.move_symbol, kicad_utils.find_symbol. py_unfold. simpl.
    by rewrite Hfind.
  - intros i s Hi Hs Hleast.
    pose proof (first_match_Some _ _ _ _ Hi Hs Hleast) as Hfind.
    unfold kicad_utils.move_symbol, kicad_utils.find_symbol, kicad_utils.set_sch.
    py_unfold. simpl. rewrite Hfind. simpl.
    eexists. split; [reflexivity|]. simpl. by split_and!.
Qed.
Lemma move_symbol_frame_witness :
  kicad_utils.move_symbol "U7" 1 2 led_session = (Returned (self led_session), led_session)
  ∧ ∃ ed',
      kicad_utils.move_symbol "R1" 1 2 led_session = (Returned ed', Session ed' (env led_session))
      ∧ Schematic.schematicSymbols (kicad_utils.sch ed') = [D1; kicad_utils.moved 1 2 R1].
Proof.
  destruct (move_symbol_frame "U7" 1 2 led_session) as [Habsent _].
  destruct (move_symbol_frame "R1" 1 2 led_session) as [_ Hpresent].
  split.
  - apply Habsent. by_compute.
  - destruct (Hpresent 1 R1) as (ed' & Hrun & _ & Hsymbols & _).
    + reflexivity.
    + by_compute.
    + intros j s' Hj Hs'. assert (j = 0) as -> by lia.
      injection Hs' as <-. by_compute.
    + exists ed'. split; [exact Hrun | exact Hsymbols].
Defined.

(** ** kicad_utils.add_wire *)

(** C5.  add_wire raises exactly when the list has fewer than 2 points.
    The error is ValueError("Wire needs at least 2 points"), the code's
    InvalidWireSpec, and it leaves the session, hence the wire collection,
    as it was.  On a list of at least 2 points add_wire returns a wire
    that it has appended, alone, to the document's wires; the wire's points
    carry the given coordinates in the given order; symbols, junctions and
    labels are unchanged. *)
Theorem add_wire_spec (points : list (float * float))
    (σ : session kicad_utils.SchematicEditor) :
  let d := kicad_utils.sch (self σ) in
  (raises (kicad_utils.add_wire points σ).1 ↔ length points < 2)
  ∧ (length points < 2 →
       kicad_utils.add_wire points σ = (Raised (ValueError "Wire needs at least 2 points"), σ))
  ∧ ((2 ≤ length points)%nat →
       ∃ wire σ',
         kicad_utils.add_wire points σ = (Returned wire, σ')
         ∧ Schematic.wires (kicad_utils.sch (self σ')) = (Schematic.wires d ++ [wire])%list
         ∧ (λ p, (Position.X p, Position.Y p)) <$> DrawnWire.points wire = points
         ∧ Schematic.schematicSymbols (kicad_utils.sch (self σ')) = Schematic.schematicSymbols d
         ∧ Schematic.junctions (kicad_utils.sch (self σ')) = Schematic.junctions d
         ∧ Schematic.labels (kicad_utils.sch (self σ')) = Schematic.labels d
         ∧ Schematic.globalLabels (kicad_utils.sch (self σ')) = Schematic.globalLabels d
         ∧ kicad_utils.path (self σ') = kicad_utils.path (self σ)
         ∧ files (env σ') = files (env σ)).
Proof.
  intros d. subst d. unfold kicad_utils.add_wire.
  destruct (decide (length points < 2)) as [Hshort | Hlong].
  - rewrite (bool_decide_eq_true_2 _ Hshort). split_and!.
    + split; [done | intros _; by eexists].
    + done.
    + lia.
  - rewrite (bool_decide_eq_false_2 _ Hlong). split_and!.
    + split; [intros [e He]; discriminate He | done].
    + done.
    + intros _. destruct σ as [[p d] w]. unfold kicad_utils.set_sch, uuid4. py_unfold. simpl.
      eexists _, _. split; [reflexivity|]. simpl. split_and!; try done.
      rewrite <- list_fmap_compose. rewrite <- (list_fmap_id points) at 2.
      apply list_fmap_ext. by intros _ [x y] _.
Qed.

Lemma add_wire_spec_witness :
  kicad_utils.add_wire [(100, 90)%float] led_session
    = (Raised (ValueError "Wire needs at least 2 points"), led_session)
  ∧ ∃ wire σ',
      kicad_utils.add_wire [(100, 90); (100, 100)]%float led_session = (Returned wire, σ')
      ∧ Schematic.wires (kicad_utils.sch (self σ')) = [wire]
      ∧ (λ p, (Position.X p, Position.Y p)) <$> DrawnWire.points wire
        = [(100, 90); (100, 100)]%float.
Proof.
  split.
  - apply (add_wire_spec [(100, 90)%float] led_session). simpl. lia.
  - destruct (add_wire_spec [(100, 90); (100, 100)]%float led_session) as (_ & _ & Hlong).
    destruct Hlong as (wire & σ' & Hrun & Hwires & Hpoints & _); [simpl; lia|].
    exists wire, σ'. split_and!; [exact Hrun | exact Hwires | exact Hpoints].
Defined.

(** ** Looking a component up: find_symbol, get_symbol_position, _get_symbol_pins *)

(** C1, as stated, fails on the code.  No symbol of the sample document
    has the reference U7, and the lookup raises nothing: find_symbol and
    get_symbol_position return None.  R1 is there, turned by 90 degrees:
    get_symbol_position returns its stored (100, 90), and its pin list is
    empty, so no pin of R1 is found and no rotation is applied. *)
Lemma resolve_pin_counterexample :
  Forall (λ s, ¬ has_reference "U7" s) (Schematic.schematicSymbols led_doc)
  ∧ kicad_utils.find_symbol "U7" led_session = (Returned None, led_session)
  ∧ kicad_utils.get_symbol_position "U7" led_session = (Returned None, led_session)
  ∧ ¬ raises (kicad_utils.get_symbol_position "U7" led_session).1
  ∧ Position.angle (SchematicSymbol.position R1) = Some 90%float
  ∧ kicad_utils.get_symbol_position "R1" led_session
    = (Returned (Some (100, 90)%float), led_session)
  ∧ schematic_editor._get_symbol_pins R1 = [].
Proof.
  split_and!; try reflexivity.
  - by_compute.
  - intros [e He]. discriminate He.
Qed.

(** C1, amended.  find_symbol raises no error and changes nothing.  It
    returns None exactly when no symbol has a property with key "Reference"
    and the reference as value, and otherwise the first such symbol in
    document order.  get_symbol_position returns None in the first case and
    that symbol's stored (X, Y) in the second, whatever the symbol's angle.
    _get_symbol_pins gives the empty list for every symbol. *)
Theorem find_symbol_spec (reference : string) (σ : session kicad_utils.SchematicEditor) :
  let symbols := Schematic.schematicSymbols (kicad_utils.sch (self σ)) in
  ∃ found,
    kicad_utils.find_symbol reference σ = (Returned found, σ)
    ∧ (found = None ↔ Forall (λ s, ¬ has_reference reference s) symbols)
    ∧ (∀ i s, found = Some (i, s) ↔
         symbols !! i = Some s ∧ has_reference reference s
         ∧ ∀ j s', j < i → symbols !! j = Some s' → ¬ has_reference reference s')
    ∧ kicad_utils.get_symbol_position reference σ
      = (Returned (match found with
                   | Some (_, s) => Some (Position.X (SchematicSymbol.position s),
                                          Position.Y (SchematicSymbol.position s))
                   | None => None
                   end), σ)
    ∧ ∀ symbol, schematic_editor._get_symbol_pins symbol = [].
Proof.
  intros symbols. exists (list_find (has_reference reference) symbols). split_and!.
  - reflexivity.
  - apply list_find_None.
  - intros i s. rewrite list_find_Some. split.
    + intros (Hi & Hs & Hleast). split_and!; [done..|]. intros j s' Hlt Hj. by apply (Hleast j s').
    + intros (Hi & Hs & Hleast). split_and!; [done..|]. intros j s' Hj Hlt. by apply (Hleast j s').
  - unfold kicad_utils.get_symbol_position, kicad_utils.find_symbol. py_unfold. simpl.
    fold symbols. by destruct (list_find _ symbols) as [[i s]|].
  - reflexivity.
Qed.

Lemma find_symbol_spec_witness :
  kicad_utils.find_symbol "R1" led_session = (Returned (Some (1, R1)), led_session)
  ∧ kicad_utils.get_symbol_position "R1" led_session
    = (Returned (Some (100, 90)%float), led_session).
Proof.
  destruct (find_symbol_spec "R1" led_session) as (found & Hfind & _ & Hsome & Hpos & _).
  assert (found = Some (1, R1)) as ->.
  { apply Hsome. split_and!.
    - reflexivity.
    - by_compute.
    - intros j s' Hj Hs'. assert (j = 0) as -> by lia.
      injection Hs' as <-. by_compute. }
  split; [exact Hfind | exact Hpos].
Defined.

(** ** str.split and tuple unpacking *)

Lemma split_nonempty (sep : ascii) (s : string) : split sep s ≠ [].
Proof.
  induction s as [|c s IH]; simpl; [done|].
  destruct (decide (c = sep)); [done|]. by destruct (split sep s).
Qed.

Lemma split_length_cons (sep c : ascii) (s : string) :
  length (split sep (String c s))
  = (if decide (c = sep) then 1 else 0) + length (split sep s).
Proof.
  simpl. destruct (decide (c = sep)); [done|].
  pose proof (split_nonempty sep s). by destruct (split sep s).
Qed.

(** One piece more for each separator: splitting a concatenation. *)
Lemma split_length_app (sep : ascii) (s t : string) :
  length (split sep (s ++ t)) + 1 = length (split sep s) + length (split sep t).
Proof.
  induction s as [|c s IH].
  - change ("" ++ t) with t. simpl. lia.
  - change (String c s ++ t) with (String c (s ++ t)).
    rewrite !split_length_cons. lia.
Qed.

Lemma split_length_pos (sep : ascii) (s : string) : 0 < length (split sep s).
Proof. pose proof (split_nonempty sep s). destruct (split sep s); simpl; [done | lia]. Qed.

Lemma unpack2_two (xs : list string) :
  length xs = 2 → ∃ a b, xs = [a; b] ∧ unpack2 xs = Returned (a, b).
Proof. destruct xs as [|a [|b [|c xs]]]; simpl; intros; try lia. by exists a, b. Qed.

Lemma unpack2_other (xs : list string) :
  length xs ≠ 2 → unpack2 xs = Raised (UnpackError 2 (length xs)).
Proof. destruct xs as [|a [|b [|c xs]]]; simpl; intros; by try lia. Qed.

(** ** schematic_editor.connect_pins *)

(** connect_pins touches nothing but standard output: it returns after
    printing its line when both endpoints split into two pieces, and raises
    in the state it was called in otherwise. *)
Lemma connect_pins_run (pin1 pin2 : string) (σ : session schematic_editor.SchematicEditor) :
  (length (split "." pin1) = 2 ∧ length (split "." pin2) = 2
   ∧ schematic_editor.connect_pins pin1 pin2 σ
     = (Returned (),
        Session (self σ) (print ("Connecting " ++ pin1 ++ " to " ++ pin2) (env σ)).2))
  ∨ (length (split "." pin1) ≠ 2
     ∧ schematic_editor.connect_pins pin1 pin2 σ
       = (Raised (UnpackError 2 (length (split "." pin1))), σ))
  ∨ (length (split "." pin1) = 2 ∧ length (split "." pin2) ≠ 2
     ∧ schematic_editor.connect_pins pin1 pin2 σ
       = (Raised (UnpackError 2 (length (split "." pin2))), σ)).
Proof.
  unfold schematic_editor.connect_pins. py_unfold.
  destruct (decide (length (split "." pin1) = 2)) as [H1|H1].
  - destruct (unpack2_two _ H1) as (a & b & _ & ->).
    destruct (decide (length (split "." pin2) = 2)) as [H2|H2].
    + destruct (unpack2_two _ H2) as (c & d & _ & ->). left. by destruct σ.
    + right. right. rewrite (unpack2_other _ H2). by destruct σ.
  - right. left. rewrite (unpack2_other _ H1). by destruct σ.
Qed.

Lemma connect_pins_returned (pin1 pin2 : string) (σ σ' : session schematic_editor.SchematicEditor) :
  schematic_editor.connect_pins pin1 pin2 σ = (Returned (), σ') →
  length (split "." pin1) = 2 ∧ length (split "." pin2) = 2
  ∧ σ' = Session (self σ) (print ("Connecting " ++ pin1 ++ " to " ++ pin2) (env σ)).2.
Proof.
  intros Hrun.
  destruct (connect_pins_run pin1 pin2 σ) as [(? & ? & H)|[(? & H)|(? & ? & H)]];
    rewrite H in Hrun; [|discriminate..].
  by injection Hrun as <-.
Qed.

(** ** schematic_editor.wire_stepper_driver *)

(** C9.  wire_stepper_driver always raises, in its first connect_pins call,
    the error of a two-value unpacking: of the one piece of "+3V3" when the
    driver reference has no dot, and of the three or more pieces of the
    first endpoint when it has.  The editor object (document, component
    map, net map, backup counter) and the files are as before the call;
    only the line "Wiring stepper driver ..." was printed. *)
Theorem wire_stepper_driver_raises (driver_ref step_pin dir_pin enable_pin : string)
    (σ : session schematic_editor.SchematicEditor) :
  let pieces := length (split "." driver_ref) in
  let got := if decide (pieces = 1) then 1 else pieces + 1 in
  got ≠ 2
  ∧ ∃ σ',
      schematic_editor.wire_stepper_driver driver_ref step_pin dir_pin enable_pin σ
      = (Raised (UnpackError 2 got), σ')
      ∧ self σ' = self σ
      ∧ files (env σ') = files (env σ)
      ∧ stdout (env σ') = (stdout (env σ) ++ [("Wiring stepper driver " ++ driver_ref)%string])%list.
Proof.
  intros pieces got.
  pose proof (split_length_pos "." driver_ref) as Hpos.
  pose proof (split_length_app "." driver_ref ".VDD") as Hvdd. simpl in Hvdd.
  fold pieces in Hpos, Hvdd. split.
  { subst got. destruct (decide (pieces = 1)); lia. }
  unfold schematic_editor.wire_stepper_driver.
  unfold mbind at 1. unfold py_bind at 1.
  destruct σ as [ed w]. unfold in_env at 1. simpl.
  set (σ1 := Session ed _).
  unfold mbind at 1. unfold py_bind at 1.
  destruct (connect_pins_run (driver_ref ++ ".VDD") "+3V3" σ1)
    as [(_ & H2 & _)|[(H1 & Hrun)|(H1 & _ & Hrun)]].
  - simpl in H2. lia.
  - rewrite Hrun. exists σ1. subst got. destruct (decide (pieces = 1)); [lia|].
    replace (length (split "." (driver_ref ++ ".VDD"))) with (pieces + 1) by lia.
    by split_and!.
  - rewrite Hrun. exists σ1. subst got. destruct (decide (pieces = 1)); [|lia].
    by split_and!.
Qed.

(** ** Nets *)

(** The constructor leaves the net map empty and the backup counter at 0. *)
Lemma init_nets_empty (p : Path) (w w' : world) (ed : schematic_editor.SchematicEditor) :
  schematic_editor.__init__ p w = (Returned ed, w') →
  schematic_editor.nets ed = ∅ ∧ schematic_editor.backup_counter ed = 0
  ∧ schematic_editor.path ed = p.
Proof.
  unfold schematic_editor.__init__.
  destruct (from_file (str p) w) as [[s|e] w1]; [|discriminate].
  simpl. by intros [= <- <-].
Qed.

(** C2, as stated, fails on the code.  The sample editor is the one the
    constructor builds.  After connect_pins("R1.2", "D1.A") and
    connect_pins("D1.A", "D1.K"), which both return, its net map is empty:
    there is no net identifier that R1.2 and D1.K could both resolve to. *)
Lemma connect_union_counterexample :
  schematic_editor.__init__ holes_path (env led_editing) = (Returned led_editor, env led_editing)
  ∧ ∃ σ2,
      (schematic_editor.connect_pins "R1.2" "D1.A";;
       schematic_editor.connect_pins "D1.A" "D1.K") led_editing = (Returned (), σ2)
      ∧ schematic_editor.nets (self σ2) = ∅
      ∧ ¬ ∃ net number, schematic_editor.nets (self σ2) !! net = Some number.
Proof.
  split; [vm_compute; reflexivity|].
  exists (Session led_editor
            (print "Connecting D1.A to D1.K"
               (print "Connecting R1.2 to D1.A" (env led_editing)).2).2).
  split; [vm_compute; reflexivity|]. split; [reflexivity|].
  intros (net & number & Hnet). cbv [self led_editor schematic_editor.nets] in Hnet.
  by rewrite lookup_empty in Hnet.
Qed.

(** C2, amended.  When connect_pins(A, B) and then connect_pins(B, C)
    return, the editor object is the one before the calls: document,
    component map and net map are unchanged, and so are the files; the two
    calls printed their lines.  A net map that was empty, as the
    constructor leaves it, is still empty: no endpoint has a net. *)
Theorem connect_pins_chain_frame (a b c : string)
    (σ σ1 σ2 : session schematic_editor.SchematicEditor) :
  schematic_editor.connect_pins a b σ = (Returned (), σ1) →
  schematic_editor.connect_pins b c σ1 = (Returned (), σ2) →
  self σ2 = self σ
  ∧ files (env σ2) = files (env σ)
  ∧ stdout (env σ2)
    = (stdout (env σ) ++ [("Connecting " ++ a ++ " to " ++ b)%string;
                          ("Connecting " ++ b ++ " to " ++ c)%string])%list
  ∧ (schematic_editor.nets (self σ) = ∅ →
     ∀ net, schematic_editor.nets (self σ2) !! net = None).
Proof.
  intros (_ & _ & ->)%connect_pins_returned (_ & _ & ->)%connect_pins_returned.
  simpl. split_and!; [done..| |].
  - by rewrite <- app_assoc.
  - intros -> net. apply lookup_empty.
Qed.

Lemma connect_pins_chain_frame_witness :
  ∃ σ1 σ2,
    schematic_editor.connect_pins "R1.2" "D1.A" led_editing = (Returned (), σ1)
    ∧ schematic_editor.connect_pins "D1.A" "D1.K" σ1 = (Returned (), σ2)
    ∧ self σ2 = led_editor
    ∧ ∀ net, schematic_editor.nets (self σ2) !! net = None.
Proof.
  pose (σ1 := Session led_editor (print "Connecting R1.2 to D1.A" (env led_editing)).2).
  pose (σ2 := Session led_editor (print "Connecting D1.A to D1.K" (env σ1)).2).
  exists σ1, σ2.
  assert (schematic_editor.connect_pins "R1.2" "D1.A" led_editing = (Returned (), σ1)) as H1
    by (vm_compute; reflexivity).
  assert (schematic_editor.connect_pins "D1.A" "D1.K" σ1 = (Returned (), σ2)) as H2
    by (vm_compute; reflexivity).
  destruct (connect_pins_chain_frame _ _ _ _ _ _ H1 H2) as (Hself & _ & _ & Hnets).
  split_and!; [exact H1 | exact H2 | exact Hself | exact (Hnets eq_refl)].
Defined.

(** C4, as stated, fails on the code.  After connect_pins("R1.2", "D1.A")
    twice on the sample editor the net map is empty: neither pin has one
    net membership, it has none. *)
Lemma connect_twice_counterexample :
  ∃ σ2,
    (schematic_editor.connect_pins "R1.2" "D1.A";;
     schematic_editor.connect_pins "R1.2" "D1.A") led_editing = (Returned (), σ2)
    ∧ schematic_editor.nets (self σ2) = ∅
    ∧ ¬ ∃ net number, schematic_editor.nets (self σ2) !! net = Some number.
Proof.
  exists (Session led_editor
            (print "Connecting R1.2 to D1.A"
               (print "Connecting R1.2 to D1.A" (env led_editing)).2).2).
  split; [vm_compute; reflexivity|]. split; [reflexivity|].
  intros (net & number & Hnet). cbv [self led_editor schematic_editor.nets] in Hnet.
  by rewrite lookup_empty in Hnet.
Qed.

(** C4, amended.  When connect_pins(A, B) returns, calling it again
    returns too, and the editor object after the second call is the one
    after the first, which is the one before it: the net map is never
    written, so no call creates a net membership and a repeated call
    creates no second one.  The second call prints its line again. *)
Theorem connect_pins_idempotent (a b : string) (σ σ1 : session schematic_editor.SchematicEditor) :
  schematic_editor.connect_pins a b σ = (Returned (), σ1) →
  ∃ σ2,
    schematic_editor.connect_pins a b σ1 = (Returned (), σ2)
    ∧ self σ2 = self σ1
    ∧ self σ1 = self σ
    ∧ schematic_editor.nets (self σ2) = schematic_editor.nets (self σ)
    ∧ files (env σ2) = files (env σ)
    ∧ stdout (env σ2) = (stdout (env σ1) ++ [("Connecting " ++ a ++ " to " ++ b)%string])%list.
Proof.
  intros (Ha & Hb & ->)%connect_pins_returned.
  destruct (connect_pins_run a b
              (Session (self σ) (print ("Connecting " ++ a ++ " to " ++ b) (env σ)).2))
    as [(_ & _ & Hrun)|[(? & _)|(_ & ? & _)]]; [|done..].
  eexists. split; [exact Hrun|]. by split_and!.
Qed.

Lemma connect_pins_idempotent_witness :
  ∃ σ1 σ2,
    schematic_editor.connect_pins "R1.2" "D1.A" led_editing = (Returned (), σ1)
    ∧ schematic_editor.connect_pins "R1.2" "D1.A" σ1 = (Returned (), σ2)
    ∧ self σ2 = self σ1.
Proof.
  pose (σ1 := Session led_editor (print "Connecting R1.2 to D1.A" (env led_editing)).2).
  exists σ1.
  assert (schematic_editor.connect_pins "R1.2" "D1.A" led_editing = (Returned (), σ1)) as H1
    by (vm_compute; reflexivity).
  destruct (connect_pins_idempotent _ _ _ _ H1) as (σ2 & H2 & Hself & _).
  exists σ2. split_and!; [exact H1 | exact H2 | exact Hself].
Defined.

(** ** schematic_editor.list_unconnected *)

(** C3, as stated, fails on the code.  No symbol declares a pin
    (_get_symbol_pins is empty for D1 and R1), so every declared pin is
    connected and the claim asks for the empty sequence; list_unconnected
    returns None, which is no sequence at all. *)
Lemma list_unconnected_counterexample :
  schematic_editor._get_symbol_pins D1 = []
  ∧ schematic_editor._get_symbol_pins R1 = []
  ∧ (schematic_editor.list_unconnected led_editing).1 = Returned schematic_editor.None_
  ∧ (schematic_editor.list_unconnected led_editing).1 ≠ Returned (schematic_editor.Pins [])
  ∧ ∀ pins, (schematic_editor.list_unconnected led_editing).1
            ≠ Returned (schematic_editor.Pins pins).
Proof. by split_and!. Qed.

(** C3, amended.  In every state list_unconnected prints the heading
    "Unconnected pins:" and returns None; it reads nothing and keeps
    nothing: the editor object and the files are unchanged, so a second
    call does the same again. *)
Theorem list_unconnected_spec (σ : session schematic_editor.SchematicEditor) :
  ∃ σ',
    schematic_editor.list_unconnected σ = (Returned schematic_editor.None_, σ')
    ∧ self σ' = self σ
    ∧ files (env σ') = files (env σ)
    ∧ stdout (env σ') = (stdout (env σ) ++ ["Unconnected pins:"])%list
    ∧ ∃ σ'',
        schematic_editor.list_unconnected σ' = (Returned schematic_editor.None_, σ'')
        ∧ self σ'' = self σ.
Proof. destruct σ as [ed w]. eexists. split; [reflexivity|]. simpl. split_and!; eauto. Qed.

(** ** Paths of backups *)

Lemma rfind_app_None (c : ascii) (s t : string) :
  pathlib.rfind c (s ++ t) = None ↔ pathlib.rfind c s = None ∧ pathlib.rfind c t = None.
Proof.
  induction s as [|a s IH].
  - change ("" ++ t) with t. simpl. tauto.
  - change (String a s ++ t) with (String a (s ++ t)). simpl.
    destruct (pathlib.rfind c (s ++ t)), (pathlib.rfind c s), (decide (a = c));
      intuition congruence.
Qed.

Lemma pretty_N_go_no_slash (x : N) (s : string) :
  pathlib.rfind "/" s = None → pathlib.rfind "/" (pretty_N_go x s) = None.
Proof.
  revert s. induction (N.lt_wf_0 x) as [x _ IH]; intros s Hs.
  assert (x = 0 ∨ 0 < x)%N as [->|?] by lia.
  - by rewrite pretty_N_go_0.
  - rewrite pretty_N_go_step by done. apply IH.
    { by apply N.div_lt. }
    simpl. rewrite Hs. unfold pretty_N_char. by repeat case_match.
Qed.

Lemma fmt_int_no_slash (n : nat) : pathlib.rfind "/" (fmt_int n) = None.
Proof.
  unfold fmt_int, pretty, pretty_nat, pretty, pretty_N.
  case_decide; [done|]. by apply pretty_N_go_no_slash.
Qed.

Lemma string_app_length (s t : string) :
  String.length (s ++ t) = String.length s + String.length t.
Proof.
  induction s as [|a s IH]; [done|].
  change (String a s ++ t) with (String a (s ++ t)). simpl. by rewrite IH.
Qed.

Lemma string_app_inj_r (s1 s2 t : string) : s1 ++ t = s2 ++ t → s1 = s2.
Proof.
  revert s2. induction s1 as [|a s1 IH]; intros [|b s2] Heq.
  - done.
  - apply (f_equal String.length) in Heq.
    change (String b s2 ++ t) with (String b (s2 ++ t)) in Heq.
    change ("" ++ t) with t in Heq. simpl in Heq. rewrite string_app_length in Heq. lia.
  - apply (f_equal String.length) in Heq.
    change (String a s1 ++ t) with (String a (s1 ++ t)) in Heq.
    change ("" ++ t) with t in Heq. simpl in Heq. rewrite string_app_length in Heq. lia.
  - change (String a s1 ++ t) with (String a (s1 ++ t)) in Heq.
    change (String b s2 ++ t) with (String b (s2 ++ t)) in Heq.
    injection Heq as -> Heq. f_equal. by apply IH.
Qed.

(** The suffix of the n-th backup: f'.bak{n}.kicad_sch'. *)
Lemma bak_suffix_inj (n m : nat) :
  ".bak" ++ fmt_int n ++ ".kicad_sch" = ".bak" ++ fmt_int m ++ ".kicad_sch" → n = m.
Proof.
  intros Heq. apply (inj (String.append ".bak")) in Heq.
  apply string_app_inj_r in Heq. by apply (inj pretty) in Heq.
Qed.

Lemma with_suffix_valid (p : Path) (sfx : string) :
  pathlib.rfind "/" sfx = None →
  String.get 0 sfx = Some "."%char →
  sfx ≠ "." →
  name p ≠ "" →
  with_suffix p sfx = Returned (pathlib.mk (parent p) (drop_suffix (name p) ++ sfx)).
Proof.
  intros Hslash Hdot Hne Hname. unfold with_suffix, pathlib.contains.
  rewrite Hslash.
  rewrite bool_decide_eq_false_2 by (by intros [? [=]]).
  rewrite bool_decide_eq_false_2 by (intros [[_ Hget]|Hone]; [by apply Hget | by apply Hne]).
  by rewrite bool_decide_eq_false_2.
Qed.

Lemma with_suffix_bak (p : Path) (n : nat) :
  name p ≠ "" →
  with_suffix p (".bak" ++ fmt_int n ++ ".kicad_sch")
  = Returned (pathlib.mk (parent p)
                (drop_suffix (name p) ++ ".bak" ++ fmt_int n ++ ".kicad_sch")).
Proof.
  intros Hname. apply with_suffix_valid; [|done| |done].
  - apply rfind_app_None. split; [done|].
    apply rfind_app_None. split; [apply fmt_int_no_slash | done].
  - intros Heq. by apply (f_equal String.length) in Heq.
Qed.

(** Backups of different numbers go to different files. *)
Lemma bak_path_inj (p : Path) (n m : nat) :
  str (pathlib.mk (parent p) (drop_suffix (name p) ++ ".bak" ++ fmt_int n ++ ".kicad_sch"))
  = str (pathlib.mk (parent p) (drop_suffix (name p) ++ ".bak" ++ fmt_int m ++ ".kicad_sch")) →
  n = m.
Proof.
  unfold str. simpl. intros Heq.
  apply (inj (String.append _)) in Heq. apply (inj (String.append _)) in Heq.
  by apply bak_suffix_inj.
Qed.

(** ** Writing a schematic to a file *)

Lemma to_file_ok (sch : Schematic.t) (p : string) (w : world) :
  io_faults w = None →
  to_file sch p w = (Returned (), set_files <[p := Serialized sch]> w).
Proof.
  intros Hok. destruct w as [fs out src drawn faults]. simpl in Hok. subst faults.
  unfold to_file, open_w, write, io_call, set_files. py_unfold. simpl.
  by rewrite insert_insert_eq.
Qed.

(** The device fails on the second call: the file was opened, and so
    emptied, and nothing was written. *)
Lemma to_file_interrupted (sch : Schematic.t) (p : string) (w : world) :
  io_faults w = Some 1 →
  ∃ w', to_file sch p w = (Raised OSError, w')
        ∧ files w' = <[p := Truncated]> (files w)
        ∧ stdout w' = stdout w.
Proof.
  intros Hone. destruct w as [fs out src drawn faults]. simpl in Hone. subst faults.
  eexists. split; [reflexivity|]. by split.
Qed.

(** Whatever the outcome, to_file touches no other path and prints nothing. *)
Lemma to_file_frame (sch : Schematic.t) (p : string) (w : world) :
  stdout (to_file sch p w).2 = stdout w
  ∧ ∀ q, q ≠ p → files (to_file sch p w).2 !! q = files w !! q.
Proof.
  destruct w as [fs out src drawn [[|[|n]]|]];
    unfold to_file, open_w, write, io_call, set_files; py_unfold; simpl;
    (split; [done|]); intros q Hq; by rewrite ?lookup_insert_ne.
Qed.

(** ** Backups *)

(** C7, as stated, fails on the code.  The target holds the previous
    save.  In kicad_utils, save with backup on writes the schematic it is
    about to save, not what the file held, to the one sibling
    holes.bak.kicad_sch; there is no holes.bak1.kicad_sch.  A second save
    after an edit writes that sibling again, so the first backup is
    replaced, and there is no holes.bak2.kicad_sch.  In schematic_editor,
    save makes no backup at all. *)
Lemma save_backup_counterexample :
  let dir := parent holes_path in
  let first := kicad_utils.save true led_session in
  let second :=
    (kicad_utils.add_wire [(100, 90); (100, 100)]%float;; kicad_utils.save true) first.2 in
  files (env led_session) !! str holes_path = Some (Serialized old_doc)
  ∧ first.1 = Returned (self led_session)
  ∧ files (env first.2) !! (dir ++ "holes.bak1.kicad_sch") = None
  ∧ files (env first.2) !! (dir ++ "holes.bak.kicad_sch") = Some (Serialized led_doc)
  ∧ Serialized led_doc ≠ Serialized old_doc
  ∧ second.1 = Returned (self second.2)
  ∧ files (env second.2) !! (dir ++ "holes.bak2.kicad_sch") = None
  ∧ files (env second.2) !! (dir ++ "holes.bak1.kicad_sch") = None
  ∧ files (env second.2) !! (dir ++ "holes.bak.kicad_sch")
    = Some (Serialized (kicad_utils.sch (self second.2)))
  ∧ kicad_utils.sch (self second.2) ≠ led_doc
  ∧ (schematic_editor.save led_editing).1 = Returned ()
  ∧ files (env (schematic_editor.save led_editing).2) !! (dir ++ "holes.bak1.kicad_sch") = None
  ∧ files (env (schematic_editor.save led_editing).2) !! (dir ++ "holes.bak.kicad_sch") = None.
Proof.
  intros dir first second.
  split_and!; try (vm_compute; reflexivity); vm_compute; discriminate.
Qed.

(** kicad_utils.save with backup on, when no file-system call fails: the
    current schematic goes to the '.bak.kicad_sch' sibling, then to the
    target. *)
Lemma save_backup_fixed (σ : session kicad_utils.SchematicEditor) :
  io_faults (env σ) = None →
  name (kicad_utils.path (self σ)) ≠ "" →
  ∃ backup_path σ',
    with_suffix (kicad_utils.path (self σ)) ".bak.kicad_sch" = Returned backup_path
    ∧ name backup_path = drop_suffix (name (kicad_utils.path (self σ))) ++ ".bak.kicad_sch"
    ∧ kicad_utils.save true σ = (Returned (self σ), σ')
    ∧ self σ' = self σ
    ∧ files (env σ')
      = <[str (kicad_utils.path (self σ)) := Serialized (kicad_utils.sch (self σ))]>
          (<[str backup_path := Serialized (kicad_utils.sch (self σ))]> (files (env σ))).
Proof.
  intros Hok Hname. destruct σ as [[p d] w]. simpl in *.
  eexists _, _. split; [by apply with_suffix_valid|]. split; [done|].
  unfold kicad_utils.save. py_unfold. simpl.
  rewrite with_suffix_valid by done. simpl.
  rewrite to_file_ok by done. simpl.
  rewrite to_file_ok by done. done.
Qed.

(** C7, amended.  Numbered backups are made by backup() of
    schematic_editor, a method of its own that save does not call.  When
    no file-system call fails and the path has a name, backup() adds one to
    the session's counter and writes the schematic in memory, not what the
    file held, to the sibling whose name replaces the suffix by
    '.bak<N>.kicad_sch', N being the new counter: 1 for the first backup of
    an editor as constructed, then 2, and so on.  Backups of other numbers
    have other paths and keep what they held.  save(backup=True) of
    kicad_utils writes the schematic in memory to the one sibling
    '.bak.kicad_sch' and then to the target. *)
Theorem backup_numbered :
  (∀ σ : session schematic_editor.SchematicEditor,
     io_faults (env σ) = None →
     name (schematic_editor.path (self σ)) ≠ "" →
     let ed := self σ in
     let n := schematic_editor.backup_counter ed + 1 in
     ∃ backup_path σ',
       with_suffix (schematic_editor.path ed) (".bak" ++ fmt_int n ++ ".kicad_sch")
       = Returned backup_path
       ∧ parent backup_path = parent (schematic_editor.path ed)
       ∧ name backup_path
         = drop_suffix (name (schematic_editor.path ed)) ++ ".bak" ++ fmt_int n ++ ".kicad_sch"
       ∧ schematic_editor.backup σ = (Returned (), σ')
       ∧ schematic_editor.backup_counter (self σ') = n
       ∧ schematic_editor.sch (self σ') = schematic_editor.sch ed
       ∧ schematic_editor.path (self σ') = schematic_editor.path ed
       ∧ files (env σ') = <[str backup_path := Serialized (schematic_editor.sch ed)]> (files (env σ))
       ∧ ∀ k other_path,
           k ≠ n →
           with_suffix (schematic_editor.path ed) (".bak" ++ fmt_int k ++ ".kicad_sch")
           = Returned other_path →
           str other_path ≠ str backup_path
           ∧ files (env σ') !! str other_path = files (env σ) !! str other_path)
  ∧ (∀ σ : session kicad_utils.SchematicEditor,
       io_faults (env σ) = None →
       name (kicad_utils.path (self σ)) ≠ "" →
       ∃ backup_path σ',
         with_suffix (kicad_utils.path (self σ)) ".bak.kicad_sch" = Returned backup_path
         ∧ name backup_path = drop_suffix (name (kicad_utils.path (self σ))) ++ ".bak.kicad_sch"
         ∧ kicad_utils.save true σ = (Returned (self σ), σ')
         ∧ self σ' = self σ
         ∧ files (env σ')
           = <[str (kicad_utils.path (self σ)) := Serialized (kicad_utils.sch (self σ))]>
               (<[str backup_path := Serialized (kicad_utils.sch (self σ))]> (files (env σ)))).
Proof.
  split; [|apply save_backup_fixed].
  intros [[p d n cs ns] w] Hok Hname. simpl in *.
  eexists _, _. split; [by apply with_suffix_bak|]. split; [done|]. split; [done|].
  assert (∀ k other_path,
            k ≠ n + 1 →
            with_suffix p (".bak" ++ fmt_int k ++ ".kicad_sch") = Returned other_path →
            str other_path
            ≠ str (pathlib.mk (parent p)
                     (drop_suffix (name p) ++ ".bak" ++ fmt_int (n + 1) ++ ".kicad_sch")))
    as Hother.
  { intros k other_path Hk Hwith Heq. rewrite with_suffix_bak in Hwith by done.
    injection Hwith as <-. by apply bak_path_inj in Heq. }
  unfold schematic_editor.backup. py_unfold. simpl.
  rewrite with_suffix_bak by done. simpl.
  rewrite to_file_ok by done. simpl.
  split; [reflexivity|]. split_and!; [done..|].
  intros k other_path Hk Hwith. split; [by apply (Hother k)|].
  cbn [files env]. rewrite lookup_insert_ne; [done|].
  intros Heq. by apply (Hother k other_path).
Qed.

Lemma backup_numbered_witness :
  ∃ σ1 σ2,
    schematic_editor.backup led_editing = (Returned (), σ1)
    ∧ schematic_editor.backup σ1 = (Returned (), σ2)
    ∧ files (env σ1)
      = <[parent holes_path ++ "holes.bak1.kicad_sch" := Serialized led_doc]>
          (files (env led_editing))
    ∧ files (env σ2)
      = <[parent holes_path ++ "holes.bak2.kicad_sch" := Serialized led_doc]> (files (env σ1)).
Proof.
  destruct backup_numbered as [Hbackup _].
  destruct (Hbackup led_editing) as (p1 & σ1 & Hp1 & _ & _ & Hrun1 & Hn1 & Hsch1 & Hpath1 & Hfiles1 & _);
    [reflexivity | discriminate |].
  injection Hp1 as <-.
  assert (io_faults (env σ1) = None) as Hok1.
  { vm_compute in Hrun1. by injection Hrun1 as <-. }
  destruct (Hbackup σ1) as (p2 & σ2 & Hp2 & _ & _ & Hrun2 & _ & _ & _ & Hfiles2 & _);
    [exact Hok1 | rewrite Hpath1; discriminate |].
  rewrite Hpath1, Hn1, Hsch1 in *. injection Hp2 as <-.
  exists σ1, σ2. split_and!; [exact Hrun1 | exact Hrun2 | exact Hfiles1 | exact Hfiles2].
Defined.

(** ** save *)

(** C8, as stated, fails on the code.  The target holds the previous save.
    When the device fails after the first file-system call of save, the
    target was opened for writing and is empty: the previous schematic is
    gone and the new one is not there.  This holds for save of kicad_utils
    (without backup) and for save of schematic_editor. *)
Lemma save_atomic_counterexample :
  let failing := quiet_world disk (Some 1) in
  let interrupted := kicad_utils.save false (Session (kicad_utils.mk holes_path led_doc) failing) in
  let interrupted' := schematic_editor.save (Session led_editor failing) in
  files failing !! str holes_path = Some (Serialized old_doc)
  ∧ interrupted.1 = Raised OSError
  ∧ files (env interrupted.2) !! str holes_path = Some Truncated
  ∧ interrupted'.1 = Raised OSError
  ∧ files (env interrupted'.2) !! str holes_path = Some Truncated.
Proof.
  intros failing interrupted interrupted'.
  split_and!; vm_compute; reflexivity.
Qed.

(** C8, amended.  save writes the schematic straight onto the target path:
    it opens the target for writing, which empties it, and writes the
    S-expression; save(backup=True) of kicad_utils does the same to the
    '.bak.kicad_sch' sibling first.  Whatever the outcome, no path other
    than the target and that sibling is created or changed, so there is no
    temporary file and no rename.  When no file-system call fails, save
    returns and the target holds the schematic in memory.  When the device
    fails after one call, save (without backup) raises and leaves the
    target empty. *)
Theorem save_in_place :
  (∀ (backup : bool) (σ : session kicad_utils.SchematicEditor),
     let ed := self σ in
     let target := str (kicad_utils.path ed) in
     (∀ q, q ≠ target →
           (∀ backup_path, with_suffix (kicad_utils.path ed) ".bak.kicad_sch"
                           = Returned backup_path → q ≠ str backup_path) →
           files (env (kicad_utils.save backup σ).2) !! q = files (env σ) !! q)
     ∧ (io_faults (env σ) = None →
        (backup = true → name (kicad_utils.path ed) ≠ "") →
        ∃ σ', kicad_utils.save backup σ = (Returned ed, σ')
              ∧ self σ' = ed
              ∧ files (env σ') !! target = Some (Serialized (kicad_utils.sch ed)))
     ∧ (io_faults (env σ) = Some 1 →
        ∃ σ', kicad_utils.save false σ = (Raised OSError, σ')
              ∧ files (env σ') !! target = Some Truncated))
  ∧ (∀ σ : session schematic_editor.SchematicEditor,
       let ed := self σ in
       let target := str (schematic_editor.path ed) in
       (∀ q, q ≠ target →
             files (env (schematic_editor.save σ).2) !! q = files (env σ) !! q)
       ∧ (io_faults (env σ) = None →
          ∃ σ', schematic_editor.save σ = (Returned (), σ')
                ∧ self σ' = ed
                ∧ files (env σ')
                  = <[target := Serialized (schematic_editor.sch ed)]> (files (env σ)))
       ∧ (io_faults (env σ) = Some 1 →
          ∃ σ', schematic_editor.save σ = (Raised OSError, σ')
                ∧ files (env σ') !! target = Some Truncated)).
Proof.
  split.
  - intros backup [[p d] w]. simpl. split_and!.
    + intros q Hq Hbak. unfold kicad_utils.save. py_unfold. simpl.
      destruct backup.
      * destruct (with_suffix p ".bak.kicad_sch") as [backup_path|e]; simpl; [|done].
        pose proof (to_file_frame d (str backup_path) w) as [_ Hframe1].
        specialize (Hframe1 q (Hbak backup_path eq_refl)).
        destruct (to_file d (str backup_path) w) as [[[]|e] w1]; simpl in *; [|done].
        pose proof (to_file_frame d (str p) w1) as [_ Hframe2].
        specialize (Hframe2 q Hq).
        destruct (to_file d (str p) w1) as [[[]|e] w2]; simpl in *; congruence.
      * simpl. pose proof (to_file_frame d (str p) w) as [_ Hframe].
        specialize (Hframe q Hq).
        destruct (to_file d (str p) w) as [[[]|e] w1]; simpl in *; congruence.
    + intros Hok Hname. destruct backup.
      * destruct (save_backup_fixed (Session (kicad_utils.mk p d) w) Hok (Hname eq_refl))
          as (backup_path & σ' & _ & _ & Hrun & Hself & Hfiles).
        exists σ'. split_and!; [done..|]. simpl in Hfiles. rewrite Hfiles.
        apply lookup_insert_eq.
      * unfold kicad_utils.save. py_unfold. simpl. rewrite to_file_ok by done. simpl.
        eexists. split; [reflexivity|]. split; [done|]. simpl. apply lookup_insert_eq.
    + intros Hone. destruct (to_file_interrupted d (str p) w Hone) as (w' & Hrun & Hfiles & _).
      unfold kicad_utils.save. py_unfold. simpl. rewrite Hrun. simpl.
      eexists. split; [reflexivity|]. simpl. rewrite Hfiles. apply lookup_insert_eq.
  - intros [[p d n cs ns] w]. simpl. split_and!.
    + intros q Hq. unfold schematic_editor.save. py_unfold. simpl.
      pose proof (to_file_frame d (str p) w) as [_ Hframe].
      specialize (Hframe q Hq).
      destruct (to_file d (str p) w) as [[[]|e] w1]; simpl in *; congruence.
    + intros Hok. unfold schematic_editor.save. py_unfold. simpl.
      rewrite to_file_ok by done. simpl. eexists. by split_and!.
    + intros Hone. destruct (to_file_interrupted d (str p) w Hone) as (w' & Hrun & Hfiles & _).
      unfold schematic_editor.save. py_unfold. simpl. rewrite Hrun. simpl.
      eexists. split; [reflexivity|]. simpl. rewrite Hfiles. apply lookup_insert_eq.
Qed.

Lemma save_in_place_witness :
  (∃ σ', kicad_utils.save true led_session = (Returned (self led_session), σ')
         ∧ files (env σ') !! str holes_path = Some (Serialized led_doc))
  ∧ (∃ σ', schematic_editor.save led_editing = (Returned (), σ')
           ∧ files (env σ') = <[str holes_path := Serialized led_doc]> (files (env led_editing)))
  ∧ files (env (kicad_utils.save true led_session).2) !! "/tmp/holes.kicad_sch"
    = files (env led_session) !! "/tmp/holes.kicad_sch".
Proof.
  destruct save_in_place as [Hutils Heditor].
  destruct (Hutils true led_session) as (Hframe & Hsaved & _).
  destruct (Heditor led_editing) as (_ & Hsaved' & _).
  split_and!.
  - destruct Hsaved as (σ' & Hrun & _ & Htarget); [reflexivity | intros _; discriminate |].
    exists σ'. split; [exact Hrun | exact Htarget].
  - destruct Hsaved' as (σ' & Hrun & _ & Hfiles); [reflexivity|].
    exists σ'. split; [exact Hrun | exact Hfiles].
  - apply Hframe.
    + by vm_compute.
    + intros backup_path Hwith. vm_compute in Hwith. injection Hwith as <-. by vm_compute.
Defined.

(** ** kicad_utils.grid_align *)

Lemma digits2_pos_bound (m : positive) : (Zpos m < 2 ^ Zpos (digits2_pos m))%Z.
Proof.
  induction m as [m IH|m IH|]; simpl digits2_pos.
  - rewrite Pos2Z.inj_succ, Z.pow_succ_r by lia. lia.
  - rewrite Pos2Z.inj_succ, Z.pow_succ_r by lia. lia.
  - reflexivity.
Qed.

(** A finite binary64 has a mantissa below 2^53 and an exponent of at
    most 971. *)
Lemma finite_bounds (x : float) (s : bool) (m : positive) (e : Z) :
  Prim2SF x = S754_finite s m e → (Zpos m < 2 ^ 53)%Z ∧ (e ≤ 971)%Z.
Proof.
  intros Hx. pose proof (Prim2SF_valid x) as Hvalid. rewrite Hx in Hvalid.
  unfold valid_binary, bounded, canonical_mantissa, fexp, emin, prec, emax in Hvalid.
  apply andb_prop in Hvalid as [Hcanon Hexp].
  apply Z.leb_le in Hexp. apply Z.eqb_eq in Hcanon.
  pose proof (digits2_pos_bound m) as Hdigits.
  assert (Zpos (digits2_pos m) ≤ 53)%Z as Hle by lia.
  split; [|lia].
  eapply Z.lt_le_trans; [exact Hdigits|]. by apply Z.pow_le_mono_r.
Qed.

(** The int of a rounded binary64 converts back without overflow. *)
Lemma round_half_even_small (m e : Z) :
  (Z.abs m < 2 ^ 53)%Z → (e ≤ 971)%Z →
  (Z.abs (round_half_even m e) < 2 ^ 1024 - 2 ^ 970)%Z.
Proof.
  intros Hm He. unfold round_half_even. destruct e as [|p|p].
  - rewrite Z.mul_1_r. eapply Z.lt_trans; [exact Hm|]. reflexivity.
  - assert (0 < 2 ^ Zpos p ≤ 2 ^ 971)%Z as Hpow.
    { split; [by apply Z.pow_pos_nonneg | by apply Z.pow_le_mono_r]. }
    change (2 ^ 1024)%Z with (2 ^ 53 * 2 ^ 971)%Z.
    change (2 ^ 970)%Z with (2 ^ 970 * 1)%Z.
    assert (2 ^ 971 = 2 * 2 ^ 970)%Z as Hhalf by reflexivity.
    assert (0 < 2 ^ 970)%Z as Hpos by reflexivity.
    rewrite Z.abs_mul, (Z.abs_eq (2 ^ Zpos p)) by lia.
    revert Hm Hpow Hhalf Hpos.
    generalize (2 ^ 971)%Z (2 ^ 970)%Z (2 ^ Zpos p)%Z (Z.abs m) (Z.abs_nonneg m).
    change (2 ^ 53)%Z with 9007199254740992%Z.
    intros c971 c970 a n Hn Hm Hpow Hhalf Hpos. nia.
  - assert (0 < 2 ^ Zpos p)%Z as Hpow by (by apply Z.pow_pos_nonneg).
    pose proof (Z.div_mod m (2 ^ Zpos p)) as Hdiv.
    pose proof (Z.mod_pos_bound m (2 ^ Zpos p) Hpow) as Hmod.
    assert (Z.abs (m / 2 ^ Zpos p) ≤ Z.abs m ∧ Z.abs (m / 2 ^ Zpos p + 1) ≤ Z.abs m + 1)%Z
      as [Hq Hq1].
    { revert Hdiv Hmod Hpow.
      generalize (m / 2 ^ Zpos p)%Z (m mod 2 ^ Zpos p)%Z (2 ^ Zpos p)%Z.
      intros q r d Hdiv Hmod Hpow. specialize (Hdiv ltac:(lia)). nia. }
    assert (2 ^ 53 + 1 < 2 ^ 1024 - 2 ^ 970)%Z as Hbig by reflexivity.
    cbv zeta. destruct (_ ?= _)%Z; [destruct (Z.even _)|..]; lia.
Qed.

(** round_half_even gives a nearest integer, and the even one on a tie. *)
Lemma round_half_even_nearest (m e : Z) :
  (Qabs (dyadic m e - inject_Z (round_half_even m e)) <= 1 # 2)%Q
  ∧ ((Qabs (dyadic m e - inject_Z (round_half_even m e)) == 1 # 2)%Q →
     Z.even (round_half_even m e) = true).
Proof.
  assert (∀ z, (Qabs (inject_Z z - inject_Z z) == 0)%Q) as Hzero.
  { intros z. unfold Qminus. by rewrite Qplus_opp_r. }
  destruct e as [|p|p]; unfold dyadic, round_half_even; cbv zeta.
  - rewrite Hzero. split; [done|]. intros Heq. discriminate Heq.
  - rewrite Hzero. split; [done|]. intros Heq. discriminate Heq.
  - assert (0 < 2 ^ Zpos p)%Z as Hpow by (by apply Z.pow_pos_nonneg).
    pose proof (Z.div_mod m (2 ^ Zpos p) ltac:(lia)) as Hdiv.
    pose proof (Z.mod_pos_bound m (2 ^ Zpos p) Hpow) as Hmod.
    assert (∀ n, (Qabs ((m # 2 ^ p) - inject_Z n) <= 1 # 2)%Q
                 ↔ (2 * Z.abs (m - n * 2 ^ Zpos p) ≤ 2 ^ Zpos p)%Z) as Hle.
    { intros n. unfold Qle, Qminus, Qplus, Qopp, inject_Z, Qabs. simpl.
      rewrite Pos2Z.inj_mul, Pos2Z.inj_pow. lia. }
    assert (∀ n, (Qabs ((m # 2 ^ p) - inject_Z n) == 1 # 2)%Q
                 ↔ (2 * Z.abs (m - n * 2 ^ Zpos p) = 2 ^ Zpos p)%Z) as Heq.
    { intros n. unfold Qeq, Qminus, Qplus, Qopp, inject_Z, Qabs. simpl.
      rewrite Pos2Z.inj_mul, Pos2Z.inj_pow. lia. }
    rewrite Hle, Heq. clear Hle Heq.
    set (d := (2 ^ Zpos p)%Z) in *. set (q := (m / d)%Z) in *. set (r := (m mod d)%Z) in *.
    clearbody q r d.
    destruct (Z.compare_spec (2 * r) d) as [Htie|Hlow|Hhigh].
    + destruct (Z.even q) eqn:Heven.
      * split; [nia | done].
      * split; [nia|]. intros _. by rewrite Z.even_add, Heven.
    + split; [nia | intros ?; nia].
    + split; [nia | intros ?; nia].
Qed.

(** C6, as stated, fails on the code.  With the grid 2.54, the binary64
    quotient of 24.13 is exactly 9.5 although the exact quotient is below
    it; round takes 9.5 to the even 10 and grid_align returns 25.4.  In
    exact arithmetic the multiple 9 * 2.54 is strictly nearer to 24.13 than
    10 * 2.54 and than the value returned.  24.13 and 22.86 both lie
    strictly within half a grid step of the grid point 9 * 2.54, and they
    snap to 25.4 and 22.86, which do not compare equal. *)
Lemma grid_align_counterexample :
  ∃ v v' g r q : Q,
    float_value x_24_13 = Some v
    ∧ float_value x_22_86 = Some v'
    ∧ float_value mm_2_54 = Some g
    ∧ float_value x_25_4 = Some r
    ∧ float_value (x_24_13 / mm_2_54) = Some q
    ∧ (q == 19 # 2)%Q
    ∧ (v / g < 19 # 2)%Q
    ∧ py_round (x_24_13 / mm_2_54) = Returned 10%Z
    ∧ kicad_utils.grid_align x_24_13 mm_2_54 led_session = (Returned x_25_4, led_session)
    ∧ (Qabs (v - 9 * g) < Qabs (v - 10 * g))%Q
    ∧ (Qabs (v - 9 * g) < Qabs (v - r))%Q
    ∧ kicad_utils.grid_align x_22_86 mm_2_54 led_session = (Returned x_22_86, led_session)
    ∧ (x_25_4 =? x_22_86)%float = false
    ∧ (Qabs (v - 9 * g) < g / 2)%Q
    ∧ (Qabs (v' - 9 * g) < g / 2)%Q.
Proof.
  eexists _, _, _, _, _.
  split; [vm_compute; reflexivity|]. split; [vm_compute; reflexivity|].
  split; [vm_compute; reflexivity|]. split; [vm_compute; reflexivity|].
  split; [vm_compute; reflexivity|].
  split_and!; vm_compute; reflexivity.
Qed.

(** C6, amended.  When the grid is not zero and the binary64 quotient
    value / grid is finite, grid_align returns float(n) * grid, a binary64
    product, where n is the integer nearest to that binary64 quotient, the
    even one when the quotient lies halfway between two integers.  The
    quotient has been rounded before n is taken, so n is nearest to the
    rounded quotient and not always to the exact one.  Every value whose
    binary64 quotient rounds to the same n snaps to the same float. *)
Theorem grid_align_rounds_quotient (value grid : float) (q : Q)
    (σ : session kicad_utils.SchematicEditor) :
  (grid =? 0)%float = false →
  float_value (value / grid) = Some q →
  ∃ n f,
    py_round (value / grid) = Returned n
    ∧ float_of_int n = Returned f
    ∧ kicad_utils.grid_align value grid σ = (Returned (f * grid)%float, σ)
    ∧ (Qabs (q - inject_Z n) <= 1 # 2)%Q
    ∧ ((Qabs (q - inject_Z n) == 1 # 2)%Q → Z.even n = true)
    ∧ ∀ value',
        py_round (value' / grid) = Returned n →
        kicad_utils.grid_align value' grid σ = (Returned (f * grid)%float, σ).
Proof.
  intros Hgrid Hq.
  assert (∀ x n f,
            py_round (x / grid) = Returned n → float_of_int n = Returned f →
            kicad_utils.grid_align x grid σ = (Returned (f * grid)%float, σ)) as Hrun.
  { intros x n f Hn Hf. unfold kicad_utils.grid_align, float_div. py_unfold.
    rewrite Hgrid. cbn beta iota. rewrite Hn. cbn beta iota. by rewrite Hf. }
  assert (∃ n, py_round (value / grid) = Returned n
               ∧ (Z.abs n < 2 ^ 1024 - 2 ^ 970)%Z
               ∧ (Qabs (q - inject_Z n) <= 1 # 2)%Q
               ∧ ((Qabs (q - inject_Z n) == 1 # 2)%Q → Z.even n = true)) as (n & Hn & Hsmall & Hnear).
  { unfold py_round, float_value in *.
    destruct (Prim2SF (value / grid)) as [sz|si| |s m e] eqn:Hsf; try discriminate Hq.
    - injection Hq as <-. exists 0%Z. split_and!; [done..|]. intros Heq. discriminate Heq.
    - injection Hq as <-. eexists. split; [reflexivity|].
      destruct (finite_bounds _ _ _ _ Hsf) as [Hm He].
      split; [|apply round_half_even_nearest].
      apply round_half_even_small; [|done]. by destruct s. }
  assert (float_of_int n = Returned (SF2Prim (binary_normalize prec emax n 0 false))) as Hf.
  { unfold float_of_int. by rewrite bool_decide_eq_true_2. }
  eexists n, _. split; [exact Hn|]. split; [exact Hf|].
  destruct Hnear as [Hle Heven].
  split_and!; [by eapply Hrun | done | done |].
  intros value' Hn'. by eapply Hrun.
Qed.

Lemma grid_align_rounds_quotient_witness :
  ∃ f,
    float_of_int 10 = Returned f
    ∧ kicad_utils.grid_align x_24_13 mm_2_54 led_session
      = (Returned (f * mm_2_54)%float, led_session)
    ∧ (Qabs ((5348024557502464 # 562949953421312) - inject_Z 10) <= 1 # 2)%Q.
Proof.
  destruct (grid_align_rounds_quotient x_24_13 mm_2_54
              (5348024557502464 # 562949953421312) led_session)
    as (n & f & Hn & Hf & Hrun & Hle & _).
  { vm_compute. reflexivity. }
  { vm_compute. reflexivity. }
  assert (n = 10%Z) as -> by (vm_compute in Hn; by injection Hn as <-).
  exists f. split_and!; [exact Hf | exact Hrun | exact Hle].
Defined.

(** * Further properties of kicad_utils.py *)

(** ** Adding and finding symbols *)

Lemma find_symbol_run (reference : string) (σ : session kicad_utils.SchematicEditor) :
  kicad_utils.find_symbol reference σ
  = (Returned (list_find (has_reference reference)
                 (Schematic.schematicSymbols (kicad_utils.sch (self σ)))), σ).
Proof. reflexivity. Qed.

Lemma get_symbol_position_run (reference : string) (σ : session kicad_utils.SchematicEditor) :
  kicad_utils.get_symbol_position reference σ
  = (Returned (match list_find (has_reference reference)
                       (Schematic.schematicSymbols (kicad_utils.sch (self σ))) with
               | Some (_, s) => Some (Position.X (SchematicSymbol.position s),
                                      Position.Y (SchematicSymbol.position s))
               | None => None
               end), σ).
Proof.
  unfold kicad_utils.get_symbol_position, kicad_utils.find_symbol. py_unfold. simpl.
  by destruct (list_find _ _) as [[i s]|].
Qed.

(** What add_symbol builds and where it puts it. *)
Lemma add_symbol_run (library_ref reference : string) (x y orientation : float) (unit : Z)
    (σ : session kicad_utils.SchematicEditor) :
  let d := kicad_utils.sch (self σ) in
  let symbol :=
    SchematicSymbol.mk library_ref (Position.mk x y (Some orientation)) unit
      (uuid_source (env σ) (uuid_drawn (env σ)))
      [Property.mk "Reference" reference (Position.mk x (y - mm_2_54)%float None)] in
  ∃ σ',
    kicad_utils.add_symbol library_ref reference x y orientation unit σ = (Returned symbol, σ')
    ∧ kicad_utils.sch (self σ')
      = Schematic.mk (Schematic.schematicSymbols d ++ [symbol]) (Schematic.wires d)
          (Schematic.junctions d) (Schematic.labels d) (Schematic.globalLabels d)
    ∧ kicad_utils.path (self σ') = kicad_utils.path (self σ)
    ∧ files (env σ') = files (env σ)
    ∧ stdout (env σ') = stdout (env σ)
    ∧ io_faults (env σ') = io_faults (env σ)
    ∧ uuid_source (env σ') = uuid_source (env σ)
    ∧ uuid_drawn (env σ') = S (uuid_drawn (env σ)).
Proof.
  destruct σ as [[p d] w]. unfold kicad_utils.add_symbol, kicad_utils.set_sch, uuid4.
  py_unfold. simpl. eexists. split; [reflexivity|]. by split_and!.
Qed.

Lemma has_reference_single (r reference : string) (pos : Position.t) l pos' u uuid :
  has_reference r (SchematicSymbol.mk l pos' u uuid [Property.mk "Reference" reference pos])
  ↔ r = reference.
Proof.
  unfold has_reference. simpl. rewrite Exists_cons, Exists_nil. simpl.
  split; [by intros [[_ ->]|[]] | intros ->; by left].
Qed.

(** X1.  A reference that no symbol carries is found right after
    add_symbol: find_symbol returns the new symbol, which is the last of the
    document, and get_symbol_position returns the (x, y) it was added at. *)
Theorem add_symbol_then_find (library_ref reference : string) (x y orientation : float)
    (unit : Z) (σ : session kicad_utils.SchematicEditor) :
  let symbols := Schematic.schematicSymbols (kicad_utils.sch (self σ)) in
  Forall (λ s, ¬ has_reference reference s) symbols →
  ∃ symbol σ',
    kicad_utils.add_symbol library_ref reference x y orientation unit σ = (Returned symbol, σ')
    ∧ Schematic.schematicSymbols (kicad_utils.sch (self σ')) = (symbols ++ [symbol])%list
    ∧ SchematicSymbol.libraryIdentifier symbol = library_ref
    ∧ SchematicSymbol.position symbol = Position.mk x y (Some orientation)
    ∧ kicad_utils.find_symbol reference σ' = (Returned (Some (length symbols, symbol)), σ')
    ∧ kicad_utils.get_symbol_position reference σ' = (Returned (Some (x, y)), σ').
Proof.
  intros symbols Hfresh.
  destruct (add_symbol_run library_ref reference x y orientation unit σ)
    as (σ' & Hrun & Hsch & _).
  eexists _, σ'. split; [exact Hrun|].
  assert (list_find (has_reference reference)
            (Schematic.schematicSymbols (kicad_utils.sch (self σ')))
          = Some (length symbols, SchematicSymbol.mk library_ref (Position.mk x y (Some orientation))
                    unit (uuid_source (env σ) (uuid_drawn (env σ)))
                    [Property.mk "Reference" reference (Position.mk x (y - mm_2_54)%float None)]))
    as Hfind.
  { rewrite Hsch. simpl. fold symbols.
    rewrite list_find_app_r by (by apply list_find_None).
    simpl. rewrite decide_True by (by apply has_reference_single).
    reflexivity. }
  split_and!; [by rewrite Hsch|done|done|..].
  - by rewrite find_symbol_run, Hfind.
  - by rewrite get_symbol_position_run, Hfind.
Qed.

Lemma add_symbol_then_find_witness :
  ∃ symbol σ',
    kicad_utils.add_symbol "Device:C" "C1" 50 60 90 1 led_session = (Returned symbol, σ')
    ∧ kicad_utils.find_symbol "C1" σ' = (Returned (Some (2, symbol)), σ')
    ∧ kicad_utils.get_symbol_position "C1" σ' = (Returned (Some (50, 60)%float), σ').
Proof.
  destruct (add_symbol_then_find "Device:C" "C1" 50 60 90 1 led_session)
    as (symbol & σ' & Hrun & _ & _ & _ & Hfind & Hpos).
  { by_compute. }
  exists symbol, σ'. split_and!; [exact Hrun | exact Hfind | exact Hpos].
Defined.

(** X2.  add_symbol does not reject a reference that is already in use: it
    appends a second symbol carrying it, and find_symbol and
    get_symbol_position keep answering with the earlier symbol. *)
Theorem add_symbol_duplicate_shadowed (library_ref reference : string) (x y orientation : float)
    (unit : Z) (σ : session kicad_utils.SchematicEditor) (i : nat) (s : SchematicSymbol.t) :
  let symbols := Schematic.schematicSymbols (kicad_utils.sch (self σ)) in
  kicad_utils.find_symbol reference σ = (Returned (Some (i, s)), σ) →
  ∃ symbol σ',
    kicad_utils.add_symbol library_ref reference x y orientation unit σ = (Returned symbol, σ')
    ∧ Schematic.schematicSymbols (kicad_utils.sch (self σ')) = (symbols ++ [symbol])%list
    ∧ has_reference reference symbol
    ∧ i < length symbols
    ∧ kicad_utils.find_symbol reference σ' = (Returned (Some (i, s)), σ')
    ∧ kicad_utils.get_symbol_position reference σ'
      = (Returned (Some (Position.X (SchematicSymbol.position s),
                         Position.Y (SchematicSymbol.position s))), σ').
Proof.
  intros symbols Hfound. rewrite find_symbol_run in Hfound. fold symbols in Hfound.
  injection Hfound as Hfound.
  destruct (add_symbol_run library_ref reference x y orientation unit σ)
    as (σ' & Hrun & Hsch & _).
  eexists _, σ'. split; [exact Hrun|].
  assert (list_find (has_reference reference)
            (Schematic.schematicSymbols (kicad_utils.sch (self σ'))) = Some (i, s)) as Hfind.
  { rewrite Hsch. simpl. by apply list_find_app_l. }
  split_and!.
  - by rewrite Hsch.
  - by apply has_reference_single.
  - apply list_find_Some in Hfound as [Hi _]. by apply lookup_lt_Some in Hi.
  - by rewrite find_symbol_run, Hfind.
  - by rewrite get_symbol_position_run, Hfind.
Qed.

Lemma add_symbol_duplicate_shadowed_witness :
  ∃ symbol σ',
    kicad_utils.add_symbol "Device:R" "R1" 20 30 0 1 led_session = (Returned symbol, σ')
    ∧ has_reference "R1" symbol
    ∧ kicad_utils.find_symbol "R1" σ' = (Returned (Some (1, R1)), σ')
    ∧ kicad_utils.get_symbol_position "R1" σ' = (Returned (Some (100, 90)%float), σ').
Proof.
  destruct (add_symbol_duplicate_shadowed "Device:R" "R1" 20 30 0 1 led_session 1 R1)
    as (symbol & σ' & Hrun & _ & Href & _ & Hfind & Hpos).
  { vm_compute. reflexivity. }
  exists symbol, σ'. split_and!; [exact Hrun | exact Href | exact Hfind | exact Hpos].
Defined.

(** X3.  add_symbol changes the answer of find_symbol for no other
    reference. *)
Theorem add_symbol_other_reference (library_ref reference other : string)
    (x y orientation : float) (unit : Z) (σ : session kicad_utils.SchematicEditor) :
  other ≠ reference →
  let σ' := (kicad_utils.add_symbol library_ref reference x y orientation unit σ).2 in
  (kicad_utils.find_symbol other σ').1 = (kicad_utils.find_symbol other σ).1
  ∧ (kicad_utils.get_symbol_position other σ').1 = (kicad_utils.get_symbol_position other σ).1.
Proof.
  intros Hother σ'.
  destruct (add_symbol_run library_ref reference x y orientation unit σ)
    as (σ1 & Hrun & Hsch & _).
  subst σ'. rewrite Hrun. cbn [snd].
  assert (list_find (has_reference other)
            (Schematic.schematicSymbols (kicad_utils.sch (self σ1)))
          = list_find (has_reference other)
              (Schematic.schematicSymbols (kicad_utils.sch (self σ)))) as Hfind.
  { rewrite Hsch. simpl.
    destruct (list_find (has_reference other)
                (Schematic.schematicSymbols (kicad_utils.sch (self σ)))) as [[j t]|] eqn:Hold.
    - by apply list_find_app_l.
    - rewrite list_find_app_r by done. simpl.
      rewrite decide_False; [done|]. by rewrite has_reference_single. }
  rewrite !find_symbol_run, !get_symbol_position_run. cbn [fst]. by rewrite Hfind.
Qed.

Lemma add_symbol_other_reference_witness :
  (kicad_utils.find_symbol "D1"
     (kicad_utils.add_symbol "Device:C" "C1" 50 60 90 1 led_session).2).1
  = Returned (Some (0, D1)).
Proof.
  destruct (add_symbol_other_reference "Device:C" "C1" "D1" 50 60 90 1 led_session) as [Hfind _].
  { discriminate. }
  rewrite Hfind. vm_compute. reflexivity.
Defined.

(** ** Moving symbols *)

Lemma has_reference_moved (r : string) (x y : float) (s : SchematicSymbol.t) :
  has_reference r (kicad_utils.moved x y s) ↔ has_reference r s.
Proof. reflexivity. Qed.

(** Moving the symbol at place i changes no lookup but for the value
    found at i. *)
Lemma list_find_moved (r : string) (x y : float) (s : SchematicSymbol.t)
    (l : list SchematicSymbol.t) (i : nat) :
  l !! i = Some s →
  list_find (has_reference r) (<[i := kicad_utils.moved x y s]> l)
  = (λ '(j, t), (j, if decide (j = i) then kicad_utils.moved x y s else t))
      <$> list_find (has_reference r) l.
Proof.
  revert i. induction l as [|h l IH]; intros [|i] Hi; simplify_eq/=.
  - destruct (decide (has_reference r s)) as [Hs|Hs].
    + rewrite decide_True by (by apply has_reference_moved). done.
    + rewrite decide_False by (by rewrite has_reference_moved).
      by destruct (list_find (has_reference r) l) as [[j t]|].
  - destruct (decide (has_reference r h)); [done|].
    rewrite (IH i Hi).
    destruct (list_find (has_reference r) l) as [[j t]|]; [|done].
    cbn [fmap option_fmap option_map prod_map fst snd].
    destruct (decide (j = i)) as [->|Hne].
    + by rewrite decide_True.
    + by rewrite decide_False by lia.
Qed.

(** X4.  After move_symbol on a reference that is found, get_symbol_position
    returns the new (x, y), find_symbol returns the same place holding the
    moved symbol, and a reference that resolves to another symbol resolves
    as before. *)
Theorem move_symbol_then_get (reference : string) (x y : float)
    (σ : session kicad_utils.SchematicEditor) (i : nat) (s : SchematicSymbol.t) :
  kicad_utils.find_symbol reference σ = (Returned (Some (i, s)), σ) →
  ∃ σ',
    kicad_utils.move_symbol reference x y σ = (Returned (self σ'), σ')
    ∧ kicad_utils.get_symbol_position reference σ' = (Returned (Some (x, y)), σ')
    ∧ kicad_utils.find_symbol reference σ' = (Returned (Some (i, kicad_utils.moved x y s)), σ')
    ∧ ∀ other j t,
        kicad_utils.find_symbol other σ = (Returned (Some (j, t)), σ) →
        j ≠ i →
        kicad_utils.find_symbol other σ' = (Returned (Some (j, t)), σ').
Proof.
  intros Hfound. rewrite find_symbol_run in Hfound. injection Hfound as Hfound.
  pose proof Hfound as (Hi & _)%list_find_Some.
  destruct σ as [[p d] w]. simpl in *.
  exists (Session
            (kicad_utils.mk p
               (Schematic.mk (<[i := kicad_utils.moved x y s]> (Schematic.schematicSymbols d))
                  (Schematic.wires d) (Schematic.junctions d) (Schematic.labels d)
                  (Schematic.globalLabels d))) w).
  split.
  { unfold kicad_utils.move_symbol, kicad_utils.find_symbol, kicad_utils.set_sch.
    py_unfold. simpl. rewrite Hfound. simpl. reflexivity. }
  split_and!.
  - rewrite get_symbol_position_run. simpl.
    rewrite (list_find_moved _ _ _ _ _ _ Hi), Hfound. simpl.
    by rewrite decide_True.
  - rewrite find_symbol_run. simpl.
    rewrite (list_find_moved _ _ _ _ _ _ Hi), Hfound. simpl.
    by rewrite decide_True.
  - intros other j t Hother Hj. rewrite find_symbol_run in Hother. injection Hother as Hother.
    rewrite find_symbol_run. simpl in *.
    rewrite (list_find_moved _ _ _ _ _ _ Hi), Hother. simpl.
    by rewrite decide_False.
Qed.

Lemma move_symbol_then_get_witness :
  ∃ σ',
    kicad_utils.move_symbol "R1" 10 20 led_session = (Returned (self σ'), σ')
    ∧ kicad_utils.get_symbol_position "R1" σ' = (Returned (Some (10, 20)%float), σ').
Proof.
  destruct (move_symbol_then_get "R1" 10 20 led_session 1 R1) as (σ' & Hrun & Hpos & _).
  { vm_compute. reflexivity. }
  exists σ'. split; [exact Hrun | exact Hpos].
Defined.

(** X5.  The later of two moves of one reference wins: moving twice is
    moving once to the second place, found or not. *)
Theorem move_symbol_twice (reference : string) (x1 y1 x2 y2 : float)
    (σ : session kicad_utils.SchematicEditor) :
  (kicad_utils.move_symbol reference x1 y1;; kicad_utils.move_symbol reference x2 y2) σ
  = kicad_utils.move_symbol reference x2 y2 σ.
Proof.
  destruct σ as [[p d] w].
  unfold kicad_utils.move_symbol, kicad_utils.find_symbol, kicad_utils.set_sch.
  py_unfold. simpl.
  destruct (list_find (has_reference reference) (Schematic.schematicSymbols d))
    as [[i s]|] eqn:Hfound; simpl.
  - pose proof Hfound as (Hi & _)%list_find_Some.
    rewrite (list_find_moved _ _ _ _ _ _ Hi), Hfound. simpl.
    rewrite decide_True by done. simpl.
    by rewrite list_insert_insert_eq.
  - by rewrite Hfound.
Qed.

(** ** Wires, junctions and labels *)

Lemma add_wire_two (a b : float * float) (σ : session kicad_utils.SchematicEditor) :
  let d := kicad_utils.sch (self σ) in
  let wire := DrawnWire.mk [Position.mk a.1 a.2 None; Position.mk b.1 b.2 None]
                (uuid_source (env σ) (uuid_drawn (env σ))) in
  kicad_utils.add_wire [a; b] σ
  = (Returned wire,
     Session
       (kicad_utils.mk (kicad_utils.path (self σ))
          (Schematic.mk (Schematic.schematicSymbols d) (Schematic.wires d ++ [wire])
             (Schematic.junctions d) (Schematic.labels d) (Schematic.globalLabels d)))
       (uuid4 (env σ)).2).
Proof. by destruct σ as [[p d] w], a, b. Qed.

Lemma add_junction_run (x y : float) (σ : session kicad_utils.SchematicEditor) :
  let d := kicad_utils.sch (self σ) in
  let junction := Junction.mk (Position.mk x y None) 0
                    (uuid_source (env σ) (uuid_drawn (env σ))) in
  kicad_utils.add_junction x y σ
  = (Returned junction,
     Session
       (kicad_utils.mk (kicad_utils.path (self σ))
          (Schematic.mk (Schematic.schematicSymbols d) (Schematic.wires d)
             (Schematic.junctions d ++ [junction]) (Schematic.labels d)
             (Schematic.globalLabels d)))
       (uuid4 (env σ)).2).
Proof. by destruct σ as [[p d] w]. Qed.

Lemma add_label_local (text : string) (x y orientation : float)
    (σ : session kicad_utils.SchematicEditor) :
  let d := kicad_utils.sch (self σ) in
  let label := Label.mk text (Position.mk x y (Some orientation))
                 (uuid_source (env σ) (uuid_drawn (env σ))) in
  kicad_utils.add_label text x y orientation false σ
  = (Returned (inl label),
     Session
       (kicad_utils.mk (kicad_utils.path (self σ))
          (Schematic.mk (Schematic.schematicSymbols d) (Schematic.wires d)
             (Schematic.junctions d) (Schematic.labels d ++ [label])
             (Schematic.globalLabels d)))
       (uuid4 (env σ)).2).
Proof. by destruct σ as [[p d] w]. Qed.

Lemma add_label_global (text : string) (x y orientation : float)
    (σ : session kicad_utils.SchematicEditor) :
  let d := kicad_utils.sch (self σ) in
  let label := GlobalLabel.mk text "input" (Position.mk x y (Some orientation))
                 (uuid_source (env σ) (uuid_drawn (env σ))) in
  kicad_utils.add_label text x y orientation true σ
  = (Returned (inr label),
     Session
       (kicad_utils.mk (kicad_utils.path (self σ))
          (Schematic.mk (Schematic.schematicSymbols d) (Schematic.wires d)
             (Schematic.junctions d) (Schematic.labels d)
             (Schematic.globalLabels d ++ [label])))
       (uuid4 (env σ)).2).
Proof. by destruct σ as [[p d] w]. Qed.

(** X6.  add_label puts the label in exactly one collection: a global
    label, of shape "input", goes to the end of globalLabels and leaves
    labels alone; a local one goes to the end of labels and leaves
    globalLabels alone.  Symbols, wires and junctions are unchanged either
    way, and the call never raises. *)
Theorem add_label_routing (text : string) (x y orientation : float) (global_label : bool)
    (σ : session kicad_utils.SchematicEditor) :
  let d := kicad_utils.sch (self σ) in
  ∃ label σ',
    kicad_utils.add_label text x y orientation global_label σ = (Returned label, σ')
    ∧ (global_label = true →
         ∃ g, label = inr g
              ∧ GlobalLabel.text g = text ∧ GlobalLabel.shape g = "input"
              ∧ GlobalLabel.position g = Position.mk x y (Some orientation)
              ∧ Schematic.globalLabels (kicad_utils.sch (self σ'))
                = (Schematic.globalLabels d ++ [g])%list
              ∧ Schematic.labels (kicad_utils.sch (self σ')) = Schematic.labels d)
    ∧ (global_label = false →
         ∃ l, label = inl l
              ∧ Label.text l = text
              ∧ Label.position l = Position.mk x y (Some orientation)
              ∧ Schematic.labels (kicad_utils.sch (self σ')) = (Schematic.labels d ++ [l])%list
              ∧ Schematic.globalLabels (kicad_utils.sch (self σ')) = Schematic.globalLabels d)
    ∧ Schematic.schematicSymbols (kicad_utils.sch (self σ')) = Schematic.schematicSymbols d
    ∧ Schematic.wires (kicad_utils.sch (self σ')) = Schematic.wires d
    ∧ Schematic.junctions (kicad_utils.sch (self σ')) = Schematic.junctions d.
Proof.
  intros d. destruct global_label.
  - rewrite add_label_global. eexists _, _. split; [reflexivity|].
    split_and!; try done. intros _. eexists. by split_and!.
  - rewrite add_label_local. eexists _, _. split; [reflexivity|].
    split_and!; try done. intros _. eexists. by split_and!.
Qed.

(** X7.  connect_points never raises.  It appends one wire from start to
    end.  It appends one local label, at the midpoint of the two points and
    with angle 0, exactly when a non-empty label text is given: with no
    label or with the empty string the labels are unchanged.  Symbols,
    junctions and global labels are unchanged; the editor is returned. *)
Theorem connect_points_spec (start end_ : float * float) (label : option string)
    (σ : session kicad_utils.SchematicEditor) :
  let d := kicad_utils.sch (self σ) in
  ∃ σ' wire,
    kicad_utils.connect_points start end_ label σ = (Returned (self σ'), σ')
    ∧ Schematic.wires (kicad_utils.sch (self σ')) = (Schematic.wires d ++ [wire])%list
    ∧ DrawnWire.points wire
      = [Position.mk start.1 start.2 None; Position.mk end_.1 end_.2 None]
    ∧ (label = None ∨ label = Some "" →
         Schematic.labels (kicad_utils.sch (self σ')) = Schematic.labels d)
    ∧ (∀ text, label = Some text → text ≠ "" →
         ∃ l, Schematic.labels (kicad_utils.sch (self σ')) = (Schematic.labels d ++ [l])%list
              ∧ Label.text l = text
              ∧ Label.position l
                = Position.mk (kicad_utils.midpoint start.1 end_.1)
                    (kicad_utils.midpoint start.2 end_.2) (Some 0%float))
    ∧ Schematic.schematicSymbols (kicad_utils.sch (self σ')) = Schematic.schematicSymbols d
    ∧ Schematic.junctions (kicad_utils.sch (self σ')) = Schematic.junctions d
    ∧ Schematic.globalLabels (kicad_utils.sch (self σ')) = Schematic.globalLabels d
    ∧ files (env σ') = files (env σ).
Proof.
  intros d. unfold kicad_utils.connect_points.
  unfold mbind at 1. unfold py_bind at 1. unfold mbind at 1. unfold py_bind at 1.
  rewrite add_wire_two. cbn zeta.
  destruct label as [text|]; [destruct (decide (text = "")) as [->|Htext]|].
  - destruct σ as [[p d0] w]. eexists (Session _ _), _. split; [reflexivity|].
    simpl. split_and!; try done. by intros text [= <-] ?.
  - rewrite bool_decide_eq_false_2 by done.
    unfold mbind at 1. unfold py_bind at 1. rewrite add_label_local.
    destruct σ as [[p d0] w]. eexists (Session _ _), _. split; [reflexivity|].
    simpl. split_and!; try done.
    + by intros [[=]|[= ->]].
    + intros ? [= <-] _. eexists. by split_and!.
  - destruct σ as [[p d0] w]. eexists (Session _ _), _. split; [reflexivity|].
    simpl. by split_and!.
Qed.

Lemma add_label_routing_witness :
  ∃ g σ',
    kicad_utils.add_label "VCC" 100 80 0 true led_session = (Returned (inr g), σ')
    ∧ Schematic.globalLabels (kicad_utils.sch (self σ')) = [g]
    ∧ Schematic.labels (kicad_utils.sch (self σ')) = [].
Proof.
  destruct (add_label_routing "VCC" 100 80 0 true led_session)
    as (label & σ' & Hrun & Hglobal & _).
  destruct (Hglobal eq_refl) as (g & -> & _ & _ & _ & Hglobals & Hlabels).
  exists g, σ'. split_and!; [exact Hrun | exact Hglobals | exact Hlabels].
Defined.

Lemma connect_points_spec_witness :
  ∃ σ' l,
    kicad_utils.connect_points (100, 90)%float (100, 100)%float (Some "LED_A") led_session
    = (Returned (self σ'), σ')
    ∧ Schematic.labels (kicad_utils.sch (self σ')) = [l]
    ∧ Label.text l = "LED_A"
    ∧ Label.position l = Position.mk 100 95 (Some 0%float).
Proof.
  destruct (connect_points_spec (100, 90)%float (100, 100)%float (Some "LED_A") led_session)
    as (σ' & wire & Hrun & _ & _ & _ & Hlabel & _).
  destruct (Hlabel "LED_A" eq_refl) as (l & Hlabels & Htext & Hpos); [discriminate|].
  exists σ', l. split_and!; [exact Hrun | exact Hlabels | exact Htext | exact Hpos].
Defined.

(** X8.  No editing method reaches the disk or prints: after add_symbol,
    add_wire, add_junction, add_label, move_symbol or connect_points the
    files, the standard output and the editor's path are what they were,
    whatever the arguments and the outcome.  Only save writes. *)
Theorem edits_stay_in_memory (σ : session kicad_utils.SchematicEditor) :
  let unchanged (σ' : session kicad_utils.SchematicEditor) :=
    files (env σ') = files (env σ) ∧ stdout (env σ') = stdout (env σ)
    ∧ kicad_utils.path (self σ') = kicad_utils.path (self σ) in
  (∀ library_ref reference x y orientation unit,
     unchanged (kicad_utils.add_symbol library_ref reference x y orientation unit σ).2)
  ∧ (∀ points, unchanged (kicad_utils.add_wire points σ).2)
  ∧ (∀ x y, unchanged (kicad_utils.add_junction x y σ).2)
  ∧ (∀ text x y orientation global_label,
       unchanged (kicad_utils.add_label text x y orientation global_label σ).2)
  ∧ (∀ reference x y, unchanged (kicad_utils.move_symbol reference x y σ).2)
  ∧ (∀ start end_ label, unchanged (kicad_utils.connect_points start end_ label σ).2).
Proof.
  intros unchanged. subst unchanged. cbn beta. split_and!.
  - intros. destruct (add_symbol_run library_ref reference x y orientation unit σ)
      as (σ' & -> & _ & ? & ? & ? & _). done.
  - intros points. unfold kicad_utils.add_wire. case_bool_decide; [done|].
    by destruct σ as [[p d] w].
  - intros. by rewrite add_junction_run.
  - intros text x y orientation []; [by rewrite add_label_global | by rewrite add_label_local].
  - intros reference x y. destruct σ as [[p d] w].
    unfold kicad_utils.move_symbol, kicad_utils.find_symbol, kicad_utils.set_sch.
    py_unfold. simpl. by destruct (list_find _ _) as [[i s]|].
  - intros start end_ label. unfold kicad_utils.connect_points.
    unfold mbind at 1. unfold py_bind at 1. unfold mbind at 1. unfold py_bind at 1.
    rewrite add_wire_two. cbn zeta.
    destruct label as [text|]; [case_bool_decide|]; by destruct σ as [[p d] w].
Qed.

(** ** The functions after the class *)

Lemma add_symbol_eq (library_ref reference : string) (x y orientation : float) (unit : Z)
    (σ : session kicad_utils.SchematicEditor) :
  let d := kicad_utils.sch (self σ) in
  let symbol :=
    SchematicSymbol.mk library_ref (Position.mk x y (Some orientation)) unit
      (uuid_source (env σ) (uuid_drawn (env σ)))
      [Property.mk "Reference" reference (Position.mk x (y - mm_2_54)%float None)] in
  kicad_utils.add_symbol library_ref reference x y orientation unit σ
  = (Returned symbol,
     Session
       (kicad_utils.mk (kicad_utils.path (self σ))
          (Schematic.mk (Schematic.schematicSymbols d ++ [symbol]) (Schematic.wires d)
             (Schematic.junctions d) (Schematic.labels d) (Schematic.globalLabels d)))
       (uuid4 (env σ)).2).
Proof. by destruct σ as [[p d] w]. Qed.

(** Runs the next call of a sequence by its equation. *)
Ltac py_step :=
  unfold mbind at 1; unfold py_bind at 1;
  first [ rewrite add_symbol_eq | rewrite add_wire_two | rewrite add_junction_run
        | rewrite add_label_global | rewrite add_label_local ];
  cbn [self env kicad_utils.sch kicad_utils.path uuid4 fst snd
       uuid_source uuid_drawn files stdout io_faults
       Schematic.schematicSymbols Schematic.wires Schematic.junctions
       Schematic.labels Schematic.globalLabels].

Lemma create_resistor_divider_run (x y : float) (r1_value r2_value prefix : string)
    (σ : session kicad_utils.SchematicEditor) :
  let d := kicad_utils.sch (self σ) in
  let u k := uuid_source (env σ) (k + uuid_drawn (env σ)) in
  let r1 := SchematicSymbol.mk "Device:R" (Position.mk x y (Some 0%float)) 1 (u 0)
              [Property.mk "Reference" (prefix ++ "1") (Position.mk x (y - mm_2_54)%float None)] in
  let r2 := SchematicSymbol.mk "Device:R" (Position.mk x (y + 10)%float (Some 0%float)) 1 (u 1)
              [Property.mk "Reference" (prefix ++ "2")
                 (Position.mk x (y + 10 - mm_2_54)%float None)] in
  let wire := DrawnWire.mk [Position.mk x (y + mm_2_54)%float None;
                            Position.mk x (y + convenience.mm_7_46)%float None] (u 2) in
  let junction := Junction.mk (Position.mk x (y + 5)%float None) 0 (u 3) in
  ∃ σ',
    convenience.create_resistor_divider x y r1_value r2_value prefix σ = (Returned (r1, r2), σ')
    ∧ kicad_utils.sch (self σ')
      = Schematic.mk (Schematic.schematicSymbols d ++ [r1; r2]) (Schematic.wires d ++ [wire])
          (Schematic.junctions d ++ [junction]) (Schematic.labels d) (Schematic.globalLabels d)
    ∧ files (env σ') = files (env σ).
Proof.
  destruct σ as [[p d] w]. unfold convenience.create_resistor_divider.
  cbn [self env kicad_utils.sch kicad_utils.path].
  do 4 py_step. eexists. split; [reflexivity|].
  cbn [self env kicad_utils.sch files]. by rewrite <- app_assoc.
Qed.

(** X9.  On a document that has neither reference, create_resistor_divider
    leaves two resistors that are found under prefix + "1" at (x, y) and
    prefix + "2" at (x, y + 10), one more wire, which runs from
    (x, y + 2.54) to (x, y + 7.46), and one more junction, at (x, y + 5);
    labels are unchanged and nothing is written to disk. *)
Theorem create_resistor_divider_spec (x y : float) (r1_value r2_value prefix : string)
    (σ : session kicad_utils.SchematicEditor) :
  let d := kicad_utils.sch (self σ) in
  Forall (λ s, ¬ has_reference (prefix ++ "1") s) (Schematic.schematicSymbols d) →
  Forall (λ s, ¬ has_reference (prefix ++ "2") s) (Schematic.schematicSymbols d) →
  ∃ r1 r2 wire junction σ',
    convenience.create_resistor_divider x y r1_value r2_value prefix σ = (Returned (r1, r2), σ')
    ∧ Schematic.schematicSymbols (kicad_utils.sch (self σ'))
      = (Schematic.schematicSymbols d ++ [r1; r2])%list
    ∧ SchematicSymbol.libraryIdentifier r1 = "Device:R"
    ∧ SchematicSymbol.libraryIdentifier r2 = "Device:R"
    ∧ kicad_utils.get_symbol_position (prefix ++ "1") σ' = (Returned (Some (x, y)), σ')
    ∧ kicad_utils.get_symbol_position (prefix ++ "2") σ'
      = (Returned (Some (x, (y + 10)%float)), σ')
    ∧ Schematic.wires (kicad_utils.sch (self σ')) = (Schematic.wires d ++ [wire])%list
    ∧ DrawnWire.points wire
      = [Position.mk x (y + mm_2_54)%float None;
         Position.mk x (y + convenience.mm_7_46)%float None]
    ∧ Schematic.junctions (kicad_utils.sch (self σ')) = (Schematic.junctions d ++ [junction])%list
    ∧ Junction.position junction = Position.mk x (y + 5)%float None
    ∧ Schematic.labels (kicad_utils.sch (self σ')) = Schematic.labels d
    ∧ Schematic.globalLabels (kicad_utils.sch (self σ')) = Schematic.globalLabels d
    ∧ files (env σ') = files (env σ).
Proof.
  intros d Hfresh1 Hfresh2.
  destruct (create_resistor_divider_run x y r1_value r2_value prefix σ)
    as (σ' & Hrun & Hsch & Hfiles).
  eexists _, _, _, _, σ'. split; [exact Hrun|].
  assert (prefix ++ "1" ≠ prefix ++ "2") as Hne.
  { intros Heq. by apply (inj (String.append prefix)) in Heq. }
  rewrite !get_symbol_position_run, Hsch. simpl. fold d.
  split_and!; try done.
  - rewrite list_find_app_r by (by apply list_find_None). simpl.
    by rewrite decide_True by (by apply has_reference_single).
  - rewrite list_find_app_r by (by apply list_find_None). simpl.
    rewrite decide_False by (by rewrite has_reference_single).
    by rewrite decide_True by (by apply has_reference_single).
Qed.

Lemma create_resistor_divider_spec_witness :
  ∃ σ',
    (convenience.create_resistor_divider 40 50 "10k" "4k7" "R9" led_session).2 = σ'
    ∧ kicad_utils.get_symbol_position "R91" σ' = (Returned (Some (40, 50)%float), σ')
    ∧ kicad_utils.get_symbol_position "R92" σ' = (Returned (Some (40, 60)%float), σ').
Proof.
  destruct (create_resistor_divider_spec 40 50 "10k" "4k7" "R9" led_session)
    as (r1 & r2 & wire & junction & σ' & Hrun & _ & _ & _ & Hr1 & Hr2 & _).
  { by_compute. }
  { by_compute. }
  exists σ'. split_and!; [by rewrite Hrun | exact Hr1 | exact Hr2].
Defined.

(** X10.  create_bypass_cap never raises.  It appends one capacitor
    turned by 90 degrees, the global labels VCC and GND in this order, and
    two wires; the first wire starts where the VCC label sits and the
    second ends where the GND label sits.  Local labels and junctions are
    unchanged. *)
Theorem create_bypass_cap_spec (x y : float) (value ref : string)
    (σ : session kicad_utils.SchematicEditor) :
  let d := kicad_utils.sch (self σ) in
  ∃ cap vcc gnd wire1 wire2 σ',
    convenience.create_bypass_cap x y value ref σ = (Returned cap, σ')
    ∧ Schematic.schematicSymbols (kicad_utils.sch (self σ'))
      = (Schematic.schematicSymbols d ++ [cap])%list
    ∧ SchematicSymbol.libraryIdentifier cap = "Device:C"
    ∧ SchematicSymbol.position cap = Position.mk x y (Some 90%float)
    ∧ has_reference ref cap
    ∧ Schematic.globalLabels (kicad_utils.sch (self σ'))
      = (Schematic.globalLabels d ++ [vcc; gnd])%list
    ∧ GlobalLabel.text vcc = "VCC" ∧ GlobalLabel.text gnd = "GND"
    ∧ Schematic.wires (kicad_utils.sch (self σ')) = (Schematic.wires d ++ [wire1; wire2])%list
    ∧ (∃ p q, DrawnWire.points wire1 = [p; q]
              ∧ Position.X p = Position.X (GlobalLabel.position vcc)
              ∧ Position.Y p = Position.Y (GlobalLabel.position vcc))
    ∧ (∃ p q, DrawnWire.points wire2 = [p; q]
              ∧ Position.X q = Position.X (GlobalLabel.position gnd)
              ∧ Position.Y q = Position.Y (GlobalLabel.position gnd))
    ∧ Schematic.labels (kicad_utils.sch (self σ')) = Schematic.labels d
    ∧ Schematic.junctions (kicad_utils.sch (self σ')) = Schematic.junctions d.
Proof.
  destruct σ as [[p d] w]. unfold convenience.create_bypass_cap.
  cbn [self env kicad_utils.sch kicad_utils.path].
  do 5 py_step.
  eexists _, _, _, _, _, _. split; [reflexivity|].
  cbn [self kicad_utils.sch Schematic.schematicSymbols Schematic.wires Schematic.junctions
       Schematic.labels Schematic.globalLabels].
  split_and!;
    first [ done | by apply has_reference_single | by rewrite <- app_assoc | by eexists _, _ ].
Qed.

(** X11.  create_connector adds a symbol for three combinations only: a
    pin_header of 2 or 3 pins and a socket_header of 2 pins, with the
    library symbols Conn_01x02_Pin, Conn_01x03_Pin and Conn_01x02_Socket.
    For every other connector type or pin count its local symbol_ref was
    never assigned: the call fails with UnboundLocalError before add_symbol
    is reached, and the session is unchanged. *)
Theorem create_connector_spec (conn_type : string) (pin_count : Z) (x y : float) (ref : string)
    (σ : session kicad_utils.SchematicEditor) :
  let d := kicad_utils.sch (self σ) in
  let added library_ref :=
    ∃ symbol σ',
      convenience.create_connector conn_type pin_count x y ref σ = (inr (Returned symbol), σ')
      ∧ SchematicSymbol.libraryIdentifier symbol = library_ref
      ∧ SchematicSymbol.position symbol = Position.mk x y (Some 0%float)
      ∧ has_reference ref symbol
      ∧ Schematic.schematicSymbols (kicad_utils.sch (self σ'))
        = (Schematic.schematicSymbols d ++ [symbol])%list in
  (conn_type = "pin_header" → pin_count = 2%Z → added "Connector:Conn_01x02_Pin")
  ∧ (conn_type = "pin_header" → pin_count = 3%Z → added "Connector:Conn_01x03_Pin")
  ∧ (conn_type = "socket_header" → pin_count = 2%Z → added "Connector:Conn_01x02_Socket")
  ∧ (¬ (conn_type = "pin_header" ∧ (pin_count = 2%Z ∨ pin_count = 3%Z)) →
     ¬ (conn_type = "socket_header" ∧ pin_count = 2%Z) →
     convenience.create_connector conn_type pin_count x y ref σ
     = (inl (convenience.UnboundLocalError "symbol_ref"), σ)).
Proof.
  intros d added. subst added. cbn beta.
  assert (∀ library_ref,
            convenience.connector_symbol_ref conn_type pin_count = Some library_ref →
            ∃ symbol σ',
              convenience.create_connector conn_type pin_count x y ref σ
              = (inr (Returned symbol), σ')
              ∧ SchematicSymbol.libraryIdentifier symbol = library_ref
              ∧ SchematicSymbol.position symbol = Position.mk x y (Some 0%float)
              ∧ has_reference ref symbol
              ∧ Schematic.schematicSymbols (kicad_utils.sch (self σ'))
                = (Schematic.schematicSymbols d ++ [symbol])%list) as Hadded.
  { intros library_ref Href. unfold convenience.create_connector. rewrite Href.
    destruct (add_symbol_run library_ref ref x y 0 1 σ) as (σ' & -> & Hsch & _).
    eexists _, σ'. split; [reflexivity|]. rewrite Hsch. simpl.
    split_and!; try done. by apply has_reference_single. }
  split_and!.
  - intros -> ->. by apply Hadded.
  - intros -> ->. by apply Hadded.
  - intros -> ->. by apply Hadded.
  - intros Hpin Hsocket. unfold convenience.create_connector, convenience.connector_symbol_ref.
    repeat case_bool_decide; try done; exfalso; tauto.
Qed.

Lemma create_connector_spec_witness :
  (∃ symbol σ',
     convenience.create_connector "pin_header" 3 10 10 "J2" led_session
     = (inr (Returned symbol), σ')
     ∧ SchematicSymbol.libraryIdentifier symbol = "Connector:Conn_01x03_Pin")
  ∧ convenience.create_connector "pin_header" 4 10 10 "J2" led_session
    = (inl (convenience.UnboundLocalError "symbol_ref"), led_session)
  ∧ convenience.create_connector "socket_header" 3 10 10 "J2" led_session
    = (inl (convenience.UnboundLocalError "symbol_ref"), led_session).
Proof.
  split_and!.
  - destruct (create_connector_spec "pin_header" 3 10 10 "J2" led_session) as (_ & Hpin3 & _).
    destruct (Hpin3 eq_refl eq_refl) as (symbol & σ' & Hrun & Hlib & _).
    exists symbol, σ'. split; [exact Hrun | exact Hlib].
  - apply (create_connector_spec "pin_header" 4 10 10 "J2" led_session).
    + intros [_ [|]]; discriminate.
    + intros [? _]; discriminate.
  - apply (create_connector_spec "socket_header" 3 10 10 "J2" led_session).
    + intros [? _]; discriminate.
    + intros [_ ?]; discriminate.
Defined.

(** * Further properties of schematic_editor.py *)

(** ** Reference designators and the component map *)

Lemma rfind_cons_None (c a : ascii) (s : string) :
  pathlib.rfind c (String a s) = None ↔ a ≠ c ∧ pathlib.rfind c s = None.
Proof.
  simpl. destruct (pathlib.rfind c s); [by split; [|intros [_ ?]]|].
  destruct (decide (a = c)); [by split; [|intros [? _]] | by split].
Qed.

Lemma remove_char_absent (c : ascii) (s : string) :
  pathlib.rfind c (remove_char c s) = None.
Proof.
  induction s as [|a s IH]; simpl; [done|].
  destruct (decide (a = c)); [done|]. by apply rfind_cons_None.
Qed.

Lemma remove_char_id (c : ascii) (s : string) :
  pathlib.rfind c s = None → remove_char c s = s.
Proof.
  induction s as [|a s IH]; [done|].
  intros [Ha Hs]%rfind_cons_None. simpl. rewrite decide_False by done. by rewrite IH.
Qed.

(** X12.  _get_symbol_reference returns None exactly when the symbol has no
    property with key "Reference".  Otherwise it returns the value of the
    first such property with every double quote removed: the result holds
    no double quote, and when that value holds none the result is the value
    itself and is a reference under which find_symbol of kicad_utils finds
    the symbol. *)
Theorem get_symbol_reference_spec (symbol : SchematicSymbol.t) :
  (schematic_editor._get_symbol_reference symbol = None
   ↔ Forall (λ prop, Property.key prop ≠ "Reference") (SchematicSymbol.properties symbol))
  ∧ (∀ ref,
       schematic_editor._get_symbol_reference symbol = Some ref →
       pathlib.rfind double_quote ref = None
       ∧ ∃ i prop,
           SchematicSymbol.properties symbol !! i = Some prop
           ∧ Property.key prop = "Reference"
           ∧ (∀ j other, j < i → SchematicSymbol.properties symbol !! j = Some other →
                         Property.key other ≠ "Reference")
           ∧ ref = remove_char double_quote (Property.value prop)
           ∧ (pathlib.rfind double_quote (Property.value prop) = None →
              ref = Property.value prop ∧ has_reference ref symbol)).
Proof.
  unfold schematic_editor._get_symbol_reference. split.
  - destruct (list_find _ _) as [[i prop]|] eqn:Hfind.
    + split; [done|]. intros Hnone.
      pose proof (proj2 (list_find_None (λ prop, Property.key prop = "Reference") _) Hnone)
        as Hfind'.
      by rewrite Hfind' in Hfind.
    + split; [|done]. intros _.
      exact (proj1 (list_find_None (λ prop, Property.key prop = "Reference") _) Hfind).
  - intros ref. destruct (list_find _ _) as [[i prop]|] eqn:Hfind; [|done].
    intros [= <-]. split; [apply remove_char_absent|].
    apply list_find_Some in Hfind as (Hi & Hkey & Hleast).
    exists i, prop. split_and!; [done..| |done|].
    + intros j other Hlt Hj. by apply (Hleast j other).
    + intros Hclean. rewrite remove_char_id by done. split; [done|].
      unfold has_reference. apply Exists_exists. exists prop.
      split; [by eapply list_elem_of_lookup_2|done].
Qed.

Lemma get_symbol_reference_spec_witness :
  schematic_editor._get_symbol_reference R1 = Some "R1" ∧ has_reference "R1" R1.
Proof.
  destruct (get_symbol_reference_spec R1) as [_ Hsome].
  destruct (Hsome "R1") as (_ & i & prop & Hi & _ & _ & Href & Hclean); [reflexivity|].
  destruct i as [|[|i]]; [|discriminate Hi..]. injection Hi as <-.
  destruct Hclean as [_ Hhas]; [reflexivity|].
  split; [reflexivity | exact Hhas].
Defined.

(** The loop of _build_component_map, one symbol further. *)
Lemma component_map_snoc (symbols : list SchematicSymbol.t) (symbol : SchematicSymbol.t) :
  schematic_editor.component_map (symbols ++ [symbol])
  = match schematic_editor._get_symbol_reference symbol with
    | Some ref =>
        if bool_decide (ref = "") then schematic_editor.component_map symbols
        else <[ref := length symbols]> (schematic_editor.component_map symbols)
    | None => schematic_editor.component_map symbols
    end.
Proof.
  unfold schematic_editor.component_map.
  rewrite imap_app, foldl_app. simpl. by rewrite Nat.add_0_r.
Qed.

(** X13.  The component map built by the constructor and by reload sends
    a reference to the last symbol, in document order, whose reference
    (as _get_symbol_reference reads it) it is: an earlier symbol of the
    same reference is not reachable through the map.  The empty reference
    is never a key. *)
Theorem component_map_last (symbols : list SchematicSymbol.t) (ref : string) (i : nat) :
  schematic_editor.component_map symbols !! ref = Some i
  ↔ ref ≠ ""
    ∧ (∃ s, symbols !! i = Some s ∧ schematic_editor._get_symbol_reference s = Some ref)
    ∧ ∀ j s', i < j → symbols !! j = Some s' →
              schematic_editor._get_symbol_reference s' ≠ Some ref.
Proof.
  revert i. induction symbols as [|symbol symbols IH] using rev_ind; intros i.
  { split; [done|]. by intros (_ & (s & Hs & _) & _). }
  rewrite component_map_snoc.
  assert (∀ k, k < length symbols → (symbols ++ [symbol])%list !! k = symbols !! k) as Hold.
  { intros k Hk. by apply lookup_app_l. }
  assert ((symbols ++ [symbol])%list !! length symbols = Some symbol) as Hnew.
  { rewrite lookup_app_r by done. by rewrite Nat.sub_diag. }
  assert (∀ k s, (symbols ++ [symbol])%list !! k = Some s → (k ≤ length symbols)%nat) as Hbound.
  { intros k s Hk%lookup_lt_Some. rewrite length_app in Hk. simpl in Hk. lia. }
  (* the map is unchanged by a symbol that does not carry ref *)
  assert (schematic_editor._get_symbol_reference symbol ≠ Some ref →
          (schematic_editor.component_map symbols !! ref = Some i
           ↔ ref ≠ ""
             ∧ (∃ s, (symbols ++ [symbol])%list !! i = Some s
                     ∧ schematic_editor._get_symbol_reference s = Some ref)
             ∧ ∀ j s', i < j → (symbols ++ [symbol])%list !! j = Some s' →
                       schematic_editor._get_symbol_reference s' ≠ Some ref)) as Hskip.
  { intros Hne. rewrite IH. split.
    - intros (Href & (s & Hs & Hsref) & Hlast). split; [done|]. split.
      + exists s. split; [|done]. rewrite Hold; [done|]. by eapply lookup_lt_Some.
      + intros j s' Hij Hj.
        destruct (decide (j = length symbols)) as [->|Hj'].
        * rewrite Hnew in Hj. by injection Hj as <-.
        * apply (Hlast j s' Hij). rewrite <- Hold; [done|].
          apply Hbound in Hj. lia.
    - intros (Href & (s & Hs & Hsref) & Hlast). split; [done|].
      assert (i < length symbols).
      { apply Hbound in Hs as Hle. destruct (decide (i = length symbols)) as [->|]; [|lia].
        rewrite Hnew in Hs. injection Hs as <-. done. }
      split.
      + exists s. split; [|done]. by rewrite <- Hold.
      + intros j s' Hij Hj. apply (Hlast j s' Hij).
        rewrite Hold; [done|]. by eapply lookup_lt_Some. }
  destruct (schematic_editor._get_symbol_reference symbol) as [r|] eqn:Hr; [|by apply Hskip].
  case_bool_decide as Hempty.
  { subst r. destruct (decide (ref = "")) as [->|Hne].
    - split.
      + intros (? & _)%IH. done.
      + by intros (? & _).
    - apply Hskip. by intros [= <-]. }
  destruct (decide (r = ref)) as [->|Hne]; [|rewrite lookup_insert_ne by done; apply Hskip; congruence].
  rewrite lookup_insert_eq. split.
  - intros [= <-]. split; [done|]. split; [by exists symbol|].
    intros j s' Hij Hj. apply Hbound in Hj. lia.
  - intros (_ & (s & Hs & Hsref) & Hlast). f_equal.
    apply Hbound in Hs as Hle.
    destruct (decide (i = length symbols)) as [|Hi]; [done|].
    exfalso. apply (Hlast (length symbols) symbol); [lia|done|done].
Qed.

Lemma component_map_last_witness :
  schematic_editor.component_map [R1; D1; R1] !! "R1" = Some 2.
Proof.
  apply component_map_last. split_and!.
  - discriminate.
  - exists R1. split; reflexivity.
  - intros j s' Hj Hs'. apply lookup_lt_Some in Hs'. simpl in Hs'. lia.
Defined.

(** ** Endpoints of the form REF.PIN *)

Lemma split_length_one (sep : ascii) (s : string) :
  length (split sep s) = 1 ↔ pathlib.rfind sep s = None.
Proof.
  induction s as [|c s IH]; [done|].
  rewrite split_length_cons, rfind_cons_None.
  pose proof (split_length_pos sep s).
  destruct (decide (c = sep)) as [->|Hc].
  - split; [lia | by intros [? _]].
  - rewrite <- IH. simpl. split; [done | by intros [_ ?]].
Qed.

(** Two pieces: one separator, with a piece free of it on either side. *)
Lemma split_length_two (sep : ascii) (s : string) :
  length (split sep s) = 2
  ↔ ∃ a b, s = a ++ String sep b
           ∧ pathlib.rfind sep a = None ∧ pathlib.rfind sep b = None.
Proof.
  induction s as [|c s IH].
  - split; [done|]. intros ([|? ?] & b & Heq & _); discriminate Heq.
  - rewrite split_length_cons. destruct (decide (c = sep)) as [->|Hc].
    + change (1 + length (split sep s) = 2) with (S (length (split sep s)) = 2).
      split.
      * intros [= Hone]. exists "", s. split; [done|]. split; [done|].
        by apply split_length_one.
      * intros (a & b & Heq & Ha & Hb). f_equal. apply split_length_one.
        destruct a as [|c' a].
        -- by injection Heq as ->.
        -- change (String c' a ++ String sep b) with (String c' (a ++ String sep b)) in Heq.
           injection Heq as <- _. by apply rfind_cons_None in Ha as [? _].
    + simpl. rewrite IH. split.
      * intros (a & b & -> & Ha & Hb). exists (String c a), b.
        split; [done|]. split; [by apply rfind_cons_None | done].
      * intros (a & b & Heq & Ha & Hb). destruct a as [|c' a].
        -- by injection Heq as ->.
        -- change (String c' a ++ String sep b) with (String c' (a ++ String sep b)) in Heq.
           injection Heq as <- ->. apply rfind_cons_None in Ha as [_ Ha].
           by exists a, b.
Qed.

(** X14.  connect_pins returns exactly when each endpoint is REF.PIN with
    one dot, neither part holding a dot (either part may be empty).  It
    then prints "Connecting <pin1> to <pin2>" and leaves the editor as it
    was.  On any other endpoint it raises the two-value unpacking error
    with the number of pieces found, and has printed nothing. *)
Theorem connect_pins_accepts (pin1 pin2 : string)
    (σ : session schematic_editor.SchematicEditor) :
  let ref_dot_pin s :=
    ∃ ref pinname, s = ref ++ "." ++ pinname
                   ∧ pathlib.rfind "." ref = None ∧ pathlib.rfind "." pinname = None in
  (ref_dot_pin pin1 ∧ ref_dot_pin pin2 ↔
     ∃ σ', schematic_editor.connect_pins pin1 pin2 σ = (Returned (), σ'))
  ∧ (ref_dot_pin pin1 → ref_dot_pin pin2 →
       ∃ σ', schematic_editor.connect_pins pin1 pin2 σ = (Returned (), σ')
             ∧ self σ' = self σ
             ∧ files (env σ') = files (env σ)
             ∧ stdout (env σ')
               = (stdout (env σ) ++ [("Connecting " ++ pin1 ++ " to " ++ pin2)%string])%list)
  ∧ (¬ (ref_dot_pin pin1 ∧ ref_dot_pin pin2) →
       ∃ got, got ≠ 2
              ∧ schematic_editor.connect_pins pin1 pin2 σ = (Raised (UnpackError 2 got), σ)).
Proof.
  intros ref_dot_pin.
  assert (∀ s, ref_dot_pin s ↔ length (split "." s) = 2) as Hform.
  { intros s. symmetry. apply split_length_two. }
  rewrite !Hform.
  destruct (connect_pins_run pin1 pin2 σ)
    as [(H1 & H2 & Hrun)|[(H1 & Hrun)|(H1 & H2 & Hrun)]]; rewrite Hrun.
  - split_and!.
    + split; [by eexists | done].
    + intros _ _. eexists. split; [done|]. by destruct σ as [ed w].
    + intros []. done.
  - split_and!.
    + split; [by intros [? _] | by intros [? [=]]].
    + done.
    + intros _. by eexists.
  - split_and!.
    + split; [by intros [_ ?] | by intros [? [=]]].
    + done.
    + intros _. by eexists.
Qed.

Lemma connect_pins_accepts_witness :
  (∃ σ', schematic_editor.connect_pins "J1.GPIO2" "U2.SDA" led_editing = (Returned (), σ'))
  ∧ ∃ got, got ≠ 2
           ∧ schematic_editor.connect_pins "J1.GPIO2" "GND" led_editing
             = (Raised (UnpackError 2 got), led_editing).
Proof.
  destruct (connect_pins_accepts "J1.GPIO2" "U2.SDA" led_editing) as (_ & Hgood & _).
  destruct (connect_pins_accepts "J1.GPIO2" "GND" led_editing) as (_ & _ & Hbad).
  split.
  - destruct Hgood as (σ' & Hrun & _).
    + by exists "J1", "GPIO2".
    + by exists "U2", "SDA".
    + by exists σ'.
  - apply Hbad. intros [_ (ref & pinname & Heq & Href & Hpin)].
    destruct ref as [|c0 [|c1 [|c2 [|c3 ref]]]]; discriminate Heq.
Defined.

(** connect_i2c, call by call. *)
Lemma connect_i2c_unfold (master slave : string)
    (σ : session schematic_editor.SchematicEditor) :
  schematic_editor.connect_i2c master slave σ
  = (let σ1 := Session (self σ)
                 (print ("Connecting I2C from " ++ master ++ " to " ++ slave) (env σ)).2 in
     match schematic_editor.connect_pins (master ++ ".GPIO2") (slave ++ ".SDA") σ1 with
     | (Returned _, σ2) =>
         schematic_editor.connect_pins (master ++ ".GPIO3") (slave ++ ".SCL") σ2
     | (Raised e, σ2) => (Raised e, σ2)
     end).
Proof. by destruct σ as [ed w]. Qed.

(** X15.  connect_i2c returns exactly when neither master nor slave holds a
    dot: it then prints its heading and the two connections, GPIO2 to SDA
    and GPIO3 to SCL, and leaves the editor as it was.  With a dot in
    either name the first connect_pins raises after the heading alone was
    printed. *)
Theorem connect_i2c_spec (master slave : string)
    (σ : session schematic_editor.SchematicEditor) :
  let heading := ("Connecting I2C from " ++ master ++ " to " ++ slave)%string in
  (pathlib.rfind "." master = None → pathlib.rfind "." slave = None →
     ∃ σ', schematic_editor.connect_i2c master slave σ = (Returned (), σ')
           ∧ self σ' = self σ
           ∧ files (env σ') = files (env σ)
           ∧ stdout (env σ')
             = (stdout (env σ)
                ++ [heading;
                    ("Connecting " ++ (master ++ ".GPIO2") ++ " to " ++ (slave ++ ".SDA"))%string;
                    ("Connecting " ++ (master ++ ".GPIO3") ++ " to " ++ (slave ++ ".SCL"))%string])%list)
  ∧ (¬ (pathlib.rfind "." master = None ∧ pathlib.rfind "." slave = None) →
       ∃ got σ', got ≠ 2
                 ∧ schematic_editor.connect_i2c master slave σ = (Raised (UnpackError 2 got), σ')
                 ∧ self σ' = self σ
                 ∧ files (env σ') = files (env σ)
                 ∧ stdout (env σ') = (stdout (env σ) ++ [heading])%list).
Proof.
  intros heading.
  assert (∀ s t, length (split "." t) = 2 →
                 (length (split "." (s ++ t)) = 2 ↔ pathlib.rfind "." s = None)) as Hpieces.
  { intros s t Ht. pose proof (split_length_app "." s t). rewrite <- split_length_one. lia. }
  rewrite !connect_i2c_unfold. cbv zeta. fold heading.
  set (σ1 := Session (self σ) _).
  destruct (connect_pins_run (master ++ ".GPIO2") (slave ++ ".SDA") σ1)
    as [(H1 & H2 & Hrun)|[(H1 & Hrun)|(H1 & H2 & Hrun)]]; rewrite !Hrun.
  - apply Hpieces in H1; [|done]. apply Hpieces in H2; [|done].
    set (σ2 := Session (self σ1) _).
    destruct (connect_pins_run (master ++ ".GPIO3") (slave ++ ".SCL") σ2)
      as [(_ & _ & Hrun2)|[(H3 & _)|(_ & H4 & _)]].
    + rewrite !Hrun2. split.
      * intros _ _. eexists. split; [reflexivity|]. simpl. split_and!; [done..|].
        by rewrite <- !app_assoc.
      * intros []. done.
    + exfalso. apply H3. by apply Hpieces.
    + exfalso. apply H4. by apply Hpieces.
  - split.
    + intros Hm _. exfalso. apply H1. by apply Hpieces.
    + intros _. exists (length (split "." (master ++ ".GPIO2"))), σ1. by split_and!.
  - split.
    + intros _ Hs. exfalso. apply H2. by apply Hpieces.
    + intros _. exists (length (split "." (slave ++ ".SDA"))), σ1. by split_and!.
Qed.

Lemma connect_i2c_spec_witness :
  ∃ σ', schematic_editor.connect_i2c "J1" "GPIOExtender1" led_editing = (Returned (), σ')
        ∧ self σ' = led_editor.
Proof.
  destruct (connect_i2c_spec "J1" "GPIOExtender1" led_editing) as [Hgood _].
  destruct Hgood as (σ' & Hrun & Hself & _); [reflexivity..|].
  exists σ'. split; [exact Hrun | exact Hself].
Defined.

(** ** Backups in a row, failed backups *)

Lemma to_file_refused (sch : Schematic.t) (p : string) (w : world) :
  io_faults w = Some 0 → to_file sch p w = (Raised OSError, w).
Proof. intros Hzero. destruct w as [fs out src drawn faults]. simpl in Hzero. by subst faults. Qed.

(** backup() when nothing fails, as an equation. *)
Lemma backup_ok (σ : session schematic_editor.SchematicEditor) :
  io_faults (env σ) = None →
  name (schematic_editor.path (self σ)) ≠ "" →
  let ed := self σ in
  let n := schematic_editor.backup_counter ed + 1 in
  let backup_path :=
    pathlib.mk (parent (schematic_editor.path ed))
      (drop_suffix (name (schematic_editor.path ed)) ++ ".bak" ++ fmt_int n ++ ".kicad_sch") in
  schematic_editor.backup σ
  = (Returned (),
     Session
       (schematic_editor.mk (schematic_editor.path ed) (schematic_editor.sch ed) n
          (schematic_editor.components ed) (schematic_editor.nets ed))
       (print ("Backup saved to: " ++ str backup_path)
          (set_files <[str backup_path := Serialized (schematic_editor.sch ed)]> (env σ))).2).
Proof.
  intros Hok Hname. destruct σ as [[p d n cs ns] w]. simpl in *.
  unfold schematic_editor.backup. py_unfold. simpl.
  rewrite with_suffix_bak by done. simpl.
  by rewrite to_file_ok by done.
Qed.

(** X16.  A backup that fails still uses up its number: backup() adds one
    to the counter before it writes, so when the device refuses the first
    file-system call the counter has advanced although no file was written
    and nothing was printed, and when it fails between opening and writing
    the numbered backup file is left empty. *)
Theorem backup_failure_keeps_count (σ : session schematic_editor.SchematicEditor) :
  name (schematic_editor.path (self σ)) ≠ "" →
  let ed := self σ in
  let n := schematic_editor.backup_counter ed + 1 in
  ∃ backup_path,
    with_suffix (schematic_editor.path ed) (".bak" ++ fmt_int n ++ ".kicad_sch")
    = Returned backup_path
    ∧ (io_faults (env σ) = Some 0 →
         ∃ σ', schematic_editor.backup σ = (Raised OSError, σ')
               ∧ schematic_editor.backup_counter (self σ') = n
               ∧ files (env σ') = files (env σ)
               ∧ stdout (env σ') = stdout (env σ))
    ∧ (io_faults (env σ) = Some 1 →
         ∃ σ', schematic_editor.backup σ = (Raised OSError, σ')
               ∧ schematic_editor.backup_counter (self σ') = n
               ∧ files (env σ') = <[str backup_path := Truncated]> (files (env σ))
               ∧ stdout (env σ') = stdout (env σ)).
Proof.
  intros Hname ed n. subst ed n. destruct σ as [[p d n cs ns] w]. simpl in *.
  eexists. split; [by apply with_suffix_bak|]. split.
  - intros Hzero. unfold schematic_editor.backup. py_unfold. simpl.
    rewrite with_suffix_bak by done. simpl.
    rewrite to_file_refused by done. simpl. eexists. by split_and!.
  - intros Hone. unfold schematic_editor.backup. py_unfold. simpl.
    rewrite with_suffix_bak by done. simpl.
    destruct (to_file_interrupted d
                (str (pathlib.mk (parent p)
                        (drop_suffix (name p) ++ ".bak" ++ fmt_int (n + 1) ++ ".kicad_sch")))
                w Hone) as (w' & -> & Hfiles & Hout).
    simpl. eexists. by split_and!.
Qed.

Lemma backup_failure_keeps_count_witness :
  ∃ σ',
    schematic_editor.backup (Session led_editor (quiet_world disk (Some 0))) = (Raised OSError, σ')
    ∧ schematic_editor.backup_counter (self σ') = 1
    ∧ files (env σ') = disk.
Proof.
  destruct (backup_failure_keeps_count (Session led_editor (quiet_world disk (Some 0))))
    as (backup_path & _ & Hzero & _); [discriminate|].
  destruct (Hzero eq_refl) as (σ' & Hrun & Hcount & Hfiles & _).
  exists σ'. split_and!; [exact Hrun | exact Hcount | exact Hfiles].
Defined.

(** X17.  k backups in a row, when nothing fails, advance the counter by k
    and leave k files, numbered from the old counter plus one to the new
    counter, each holding the schematic in memory; every other path holds
    what it held, the editor's document is unchanged, and k lines were
    printed. *)
Theorem backups_in_a_row (k : nat) (σ : session schematic_editor.SchematicEditor) :
  io_faults (env σ) = None →
  name (schematic_editor.path (self σ)) ≠ "" →
  let ed := self σ in
  let c := schematic_editor.backup_counter ed in
  let numbered i backup_path :=
    c < i ∧ (i ≤ c + k)%nat
    ∧ with_suffix (schematic_editor.path ed) (".bak" ++ fmt_int i ++ ".kicad_sch")
      = Returned backup_path in
  ∃ σ',
    times k schematic_editor.backup σ = (Returned (), σ')
    ∧ schematic_editor.backup_counter (self σ') = c + k
    ∧ schematic_editor.sch (self σ') = schematic_editor.sch ed
    ∧ schematic_editor.path (self σ') = schematic_editor.path ed
    ∧ io_faults (env σ') = None
    ∧ (∀ i backup_path, numbered i backup_path →
         files (env σ') !! str backup_path = Some (Serialized (schematic_editor.sch ed)))
    ∧ (∀ q, (∀ i backup_path, numbered i backup_path → q ≠ str backup_path) →
         files (env σ') !! q = files (env σ) !! q)
    ∧ length (stdout (env σ')) = length (stdout (env σ)) + k.
Proof.
  revert σ. induction k as [|k IH]; intros σ Hok Hname ed c numbered.
  { exists σ. split; [done|]. subst numbered. cbn beta.
    split_and!; first [ done | lia | intros i backup_path (? & ? & _); lia ]. }
  subst numbered. cbn beta.
  change (times (S k) schematic_editor.backup σ)
    with ((schematic_editor.backup;; times k schematic_editor.backup) σ).
  unfold mbind at 1. unfold py_bind at 1. rewrite backup_ok by done. fold ed c.
  set (bp1 := pathlib.mk (parent (schematic_editor.path ed)) _).
  set (σ1 := Session _ _).
  destruct (IH σ1) as (σ' & Hrun & Hcount & Hsch & Hpath & Hok' & Hfiles & Hframe & Hout);
    [by destruct σ as [? []] | done |].
  cbn [self env σ1 schematic_editor.backup_counter schematic_editor.sch
       schematic_editor.path] in Hcount, Hsch, Hpath, Hfiles, Hframe.
  exists σ'. split; [exact Hrun|].
  split_and!; [lia | done | done | done | | |].
  - intros i backup_path (Hlo & Hhi & Hwith).
    destruct (decide (i = c + 1)) as [->|Hi].
    + rewrite with_suffix_bak in Hwith by done. injection Hwith as <-. fold bp1.
      rewrite Hframe.
      * subst σ1. destruct σ as [? []]. cbn. apply lookup_insert_eq.
      * intros j other (Hj & _ & Hother) Heq.
        rewrite with_suffix_bak in Hother by done. injection Hother as <-.
        apply bak_path_inj in Heq. lia.
    + apply (Hfiles i). split_and!; [lia | lia | done].
  - intros q Hq. rewrite Hframe.
    + subst σ1. destruct σ as [? []]. cbn. rewrite lookup_insert_ne; [done|].
      intros <-. apply (Hq (c + 1) bp1); [|done].
      split_and!; [lia | lia |]. by apply with_suffix_bak.
    + intros i backup_path (Hlo & Hhi & Hwith). apply (Hq i). split_and!; [lia | lia | done].
  - rewrite Hout. subst σ1. destruct σ as [? []]. cbn. rewrite length_app. simpl. lia.
Qed.

Lemma backups_in_a_row_witness :
  ∃ σ',
    times 3 schematic_editor.backup led_editing = (Returned (), σ')
    ∧ schematic_editor.backup_counter (self σ') = 3
    ∧ files (env σ') !! "holes/holes.bak2.kicad_sch" = Some (Serialized led_doc).
Proof.
  destruct (backups_in_a_row 3 led_editing) as (σ' & Hrun & Hcount & _ & _ & _ & Hfiles & _);
    [reflexivity | discriminate |].
  exists σ'. split_and!; [exact Hrun | exact Hcount |].
  apply (Hfiles 2 (pathlib.mk "holes/" "holes.bak2.kicad_sch")).
  split_and!; [simpl; lia | simpl; lia | vm_compute; reflexivity].
Defined.

(** ** Loading: the constructors and reload *)

Lemma from_file_ok (p : string) (s : Schematic.t) (w : world) :
  files w !! p = Some (Serialized s) →
  io_faults w = None →
  from_file p w = (Returned s, w).
Proof.
  intros Hfile Hok. destruct w as [fs out src drawn faults]. simpl in *. subst faults.
  unfold from_file, io_call. py_unfold. simpl. by rewrite Hfile.
Qed.

Lemma from_file_missing (p : string) (w : world) :
  files w !! p = None →
  from_file p w = (Raised (Exception_ "Given path is not a file!"), w).
Proof. intros Hfile. unfold from_file. py_unfold. simpl. by rewrite Hfile. Qed.

(** X18.  reload replaces the document in memory by the one in the file,
    so edits that were not saved are gone; it rebuilds the component map
    from the loaded symbols, empties the net map, and keeps the path and
    the backup counter; the files are not changed.  When the path is no
    file, reload raises and the editor keeps everything it had. *)
Theorem reload_spec (σ : session schematic_editor.SchematicEditor) :
  let ed := self σ in
  let target := str (schematic_editor.path ed) in
  (∀ s,
     files (env σ) !! target = Some (Serialized s) →
     io_faults (env σ) = None →
     ∃ σ',
       schematic_editor.reload σ = (Returned (), σ')
       ∧ schematic_editor.sch (self σ') = s
       ∧ schematic_editor.components (self σ')
         = schematic_editor.component_map (Schematic.schematicSymbols s)
       ∧ schematic_editor.nets (self σ') = ∅
       ∧ schematic_editor.backup_counter (self σ') = schematic_editor.backup_counter ed
       ∧ schematic_editor.path (self σ') = schematic_editor.path ed
       ∧ files (env σ') = files (env σ)
       ∧ stdout (env σ') = (stdout (env σ) ++ ["Schematic reloaded"])%list)
  ∧ (files (env σ) !! target = None →
     schematic_editor.reload σ = (Raised (Exception_ "Given path is not a file!"), σ)).
Proof.
  intros ed target. subst ed target. destruct σ as [[p d n cs ns] w]. simpl. split.
  - intros s Hfile Hok. unfold schematic_editor.reload.
    unfold mbind at 1. unfold py_bind at 1. cbn [get_self gets self].
    unfold mbind at 1. unfold py_bind at 1. unfold in_env at 1. cbn [env self schematic_editor.path].
    rewrite (from_file_ok _ _ _ Hfile Hok).
    eexists. split; [reflexivity|]. simpl. by split_and!.
  - intros Hfile. unfold schematic_editor.reload.
    unfold mbind at 1. unfold py_bind at 1. cbn [get_self gets self].
    unfold mbind at 1. unfold py_bind at 1. unfold in_env at 1. cbn [env self schematic_editor.path].
    by rewrite (from_file_missing _ _ Hfile).
Qed.

Lemma reload_spec_witness :
  ∃ σ',
    schematic_editor.reload
      (Session (schematic_editor.mk holes_path led_doc 2 {[ "D1" := 0; "R1" := 1 ]} ∅)
         (quiet_world disk None))
    = (Returned (), σ')
    ∧ schematic_editor.sch (self σ') = old_doc
    ∧ schematic_editor.backup_counter (self σ') = 2.
Proof.
  destruct (reload_spec
              (Session (schematic_editor.mk holes_path led_doc 2 {[ "D1" := 0; "R1" := 1 ]} ∅)
                 (quiet_world disk None))) as [Hfound _].
  destruct (Hfound old_doc) as (σ' & Hrun & Hsch & _ & _ & Hcount & _).
  { vm_compute. reflexivity. }
  { reflexivity. }
  exists σ'. split_and!; [exact Hrun | exact Hsch | exact Hcount].
Defined.

(** X19.  Either constructor reads the file and nothing else: on a file
    holding a schematic it returns an editor on that path with that
    document and leaves the world as it was; the editor of
    schematic_editor starts with backup counter 0, the component map of the
    document's symbols and an empty net map.  On a path that is no file
    both raise and no editor is made. *)
Theorem constructors_spec (p : Path) (w : world) :
  (∀ s,
     files w !! str p = Some (Serialized s) →
     io_faults w = None →
     kicad_utils.__init__ p w = (Returned (kicad_utils.mk p s), w)
     ∧ schematic_editor.__init__ p w
       = (Returned (schematic_editor.mk p s 0
                      (schematic_editor.component_map (Schematic.schematicSymbols s)) ∅), w))
  ∧ (files w !! str p = None →
     kicad_utils.__init__ p w = (Raised (Exception_ "Given path is not a file!"), w)
     ∧ schematic_editor.__init__ p w = (Raised (Exception_ "Given path is not a file!"), w)).
Proof.
  split.
  - intros s Hfile Hok. split.
    + unfold kicad_utils.__init__. unfold mbind, py_bind.
      by rewrite (from_file_ok _ _ _ Hfile Hok).
    + unfold schematic_editor.__init__. by rewrite (from_file_ok _ _ _ Hfile Hok).
  - intros Hfile. split.
    + unfold kicad_utils.__init__. unfold mbind, py_bind.
      by rewrite (from_file_missing _ _ Hfile).
    + unfold schematic_editor.__init__. by rewrite (from_file_missing _ _ Hfile).
Qed.

Lemma constructors_spec_witness :
  kicad_utils.__init__ holes_path (quiet_world disk None)
  = (Returned (kicad_utils.mk holes_path old_doc), quiet_world disk None)
  ∧ schematic_editor.__init__ holes_path (quiet_world ∅ None)
    = (Raised (Exception_ "Given path is not a file!"), quiet_world ∅ None).
Proof.
  destruct (constructors_spec holes_path (quiet_world disk None)) as [Hfound _].
  destruct (constructors_spec holes_path (quiet_world ∅ None)) as [_ Hmissing].
  split.
  - apply Hfound; [vm_compute; reflexivity | reflexivity].
  - apply Hmissing. reflexivity.
Defined.

(** ** The backup of kicad_utils.save is another file *)

Lemma rfind_app_Some (c : ascii) (s t : string) (j : nat) :
  pathlib.rfind c t = Some j → pathlib.rfind c (s ++ t) = Some (String.length s + j).
Proof.
  intros Ht. induction s as [|a s IH]; [done|].
  change (String a s ++ t) with (String a (s ++ t)). simpl. by rewrite IH.
Qed.

Lemma substring_length (n m : nat) (s : string) :
  String.length (String.substring n m s) = m `min` (String.length s - n).
Proof.
  revert n m. induction s as [|a s IH]; intros [|n] [|m]; simpl; rewrite ?IH; try lia.
  destruct (String.length s - n); lia.
Qed.

(** Replacing the suffix by '.bak.kicad_sch' never gives the name back. *)
Lemma bak_name_differs (nm : string) : drop_suffix nm ++ ".bak.kicad_sch" ≠ nm.
Proof.
  intros Heq.
  pose proof (rfind_app_Some "." (drop_suffix nm) ".bak.kicad_sch" 4 eq_refl) as Hdot.
  pose proof (f_equal String.length Heq) as Hlen.
  rewrite string_app_length in Hlen. simpl in Hlen.
  rewrite Heq in Hdot.
  assert (String.length (drop_suffix nm) = String.length (drop_suffix nm) + 4); [|lia].
  unfold drop_suffix at 1, suffix. rewrite Hdot.
  assert (bool_decide (0 < String.length (drop_suffix nm) + 4 < String.length nm - 1) = true)
    as Hinside by (apply bool_decide_eq_true_2; lia).
  rewrite !Hinside.
  rewrite bool_decide_eq_false_2.
  - rewrite !substring_length. lia.
  - intros Hempty%(f_equal String.length). rewrite substring_length in Hempty.
    simpl in Hempty. lia.
Qed.

(** What save(backup=True) does to the two files, by the number of
    file-system calls the device still serves. *)
Lemma save_backup_faults (p : Path) (d : Schematic.t) (w : world) (k : nat) :
  name p ≠ "" →
  io_faults w = Some k →
  let backup_path := pathlib.mk (parent p) (drop_suffix (name p) ++ ".bak.kicad_sch") in
  let r := kicad_utils.save true (Session (kicad_utils.mk p d) w) in
  match k with
  | 0 => r.1 = Raised OSError ∧ files (env r.2) = files w
  | 1 => r.1 = Raised OSError ∧ files (env r.2) = <[str backup_path := Truncated]> (files w)
  | 2 => r.1 = Raised OSError
         ∧ files (env r.2) = <[str backup_path := Serialized d]> (files w)
  | 3 => r.1 = Raised OSError
         ∧ files (env r.2)
           = <[str p := Truncated]> (<[str backup_path := Serialized d]> (files w))
  | _ => r.1 = Returned (kicad_utils.mk p d)
         ∧ files (env r.2)
           = <[str p := Serialized d]> (<[str backup_path := Serialized d]> (files w))
  end.
Proof.
  intros Hname Hk backup_path r. subst r.
  destruct w as [fs out src drawn faults]. simpl in Hk. subst faults.
  unfold kicad_utils.save. py_unfold. cbn [self env kicad_utils.path kicad_utils.sch].
  rewrite with_suffix_valid by done. fold backup_path.
  unfold to_file, open_w, write, io_call, set_files. py_unfold.
  destruct k as [|[|[|[|k]]]]; cbn; split; try done;
    by rewrite ?insert_insert_eq.
Qed.

(** X20.  A save with backup that fails never loses both copies: whenever
    save(backup=True) raises, either the target file is exactly what it was
    before the call, or the backup file, which is a file other than the
    target, already holds the complete schematic being saved. *)
Theorem save_backup_failure_safe (σ σ' : session kicad_utils.SchematicEditor) (e : exn) :
  let ed := self σ in
  let target := str (kicad_utils.path ed) in
  kicad_utils.save true σ = (Raised e, σ') →
  files (env σ') !! target = files (env σ) !! target
  ∨ ∃ backup_path,
      with_suffix (kicad_utils.path ed) ".bak.kicad_sch" = Returned backup_path
      ∧ str backup_path ≠ target
      ∧ files (env σ') !! str backup_path = Some (Serialized (kicad_utils.sch ed)).
Proof.
  intros ed target Hrun. subst ed target. destruct σ as [[p d] w]. simpl.
  destruct (decide (name p = "")) as [Hempty|Hname].
  { left. unfold kicad_utils.save in Hrun. py_unfold. simpl in Hrun.
    unfold with_suffix in Hrun. simpl in Hrun.
    rewrite (bool_decide_eq_true_2 _ Hempty) in Hrun. simpl in Hrun.
    by injection Hrun as _ <-. }
  assert (str (pathlib.mk (parent p) (drop_suffix (name p) ++ ".bak.kicad_sch")) ≠ str p)
    as Hother.
  { unfold str. simpl. intros Heq%(inj (String.append _)). by apply bak_name_differs in Heq. }
  destruct (io_faults w) as [k|] eqn:Hfaults.
  - pose proof (save_backup_faults p d w k Hname Hfaults) as Hcases. cbv zeta in Hcases.
    rewrite Hrun in Hcases. simpl in Hcases.
    destruct k as [|[|[|[|k]]]]; destruct Hcases as [Hout Hfiles]; rewrite Hfiles.
    + by left.
    + left. by rewrite lookup_insert_ne.
    + left. by rewrite lookup_insert_ne.
    + right. eexists. split; [by apply with_suffix_valid|]. split; [done|].
      rewrite lookup_insert_ne by done. apply lookup_insert_eq.
    + discriminate Hout.
  - destruct (save_backup_fixed (Session (kicad_utils.mk p d) w) Hfaults Hname)
      as (? & ? & _ & _ & Hreturned & _). rewrite Hreturned in Hrun. discriminate Hrun.
Qed.

Lemma save_backup_failure_safe_witness :
  let σ := Session (kicad_utils.mk holes_path led_doc) (quiet_world disk (Some 3)) in
  (kicad_utils.save true σ).1 = Raised OSError
  ∧ (files (env (kicad_utils.save true σ).2) !! str holes_path = files (env σ) !! str holes_path
     ∨ ∃ backup_path,
         with_suffix holes_path ".bak.kicad_sch" = Returned backup_path
         ∧ str backup_path ≠ str holes_path
         ∧ files (env (kicad_utils.save true σ).2) !! str backup_path
           = Some (Serialized led_doc)).
Proof.
  intros σ. split; [vm_compute; reflexivity|].
  apply (save_backup_failure_safe σ (kicad_utils.save true σ).2 OSError).
  vm_compute. reflexivity.
Defined.

(** * example_add_led.py *)

(** X21.  Run on any file that holds a schematic, with no failure of the
    device, the example script returns and leaves the target and its
    '.bak.kicad_sch' sibling holding the same document: the one read, with
    the LED D1 at (100, 100) and the resistor R1 at (100, 90) appended to
    its symbols, the global labels VCC and GND appended, and three wires
    appended, of which the last two are of length zero: both ends sit on
    the VCC label and on the GND label.  Local labels and junctions are
    those read. *)
Theorem example_add_led_spec (w : world) (d : Schematic.t) :
  let target := str example_add_led.schematic in
  let sibling := (parent example_add_led.schematic ++ "holes.bak.kicad_sch")%string in
  files w !! target = Some (Serialized d) →
  io_faults w = None →
  ∃ ed w' led resistor wire vcc_wire gnd_wire vcc gnd,
    example_add_led.main w = (Returned (ed, ed), w')
    ∧ files w' !! target = Some (Serialized (kicad_utils.sch ed))
    ∧ files w' !! sibling = Some (Serialized (kicad_utils.sch ed))
    ∧ (∀ q, q ≠ target → q ≠ sibling → files w' !! q = files w !! q)
    ∧ Schematic.schematicSymbols (kicad_utils.sch ed)
      = (Schematic.schematicSymbols d ++ [led; resistor])%list
    ∧ has_reference "D1" led
    ∧ SchematicSymbol.position led = Position.mk 100 100 (Some 0%float)
    ∧ has_reference "R1" resistor
    ∧ SchematicSymbol.position resistor = Position.mk 100 90 (Some 0%float)
    ∧ Schematic.wires (kicad_utils.sch ed)
      = (Schematic.wires d ++ [wire; vcc_wire; gnd_wire])%list
    ∧ Schematic.globalLabels (kicad_utils.sch ed)
      = (Schematic.globalLabels d ++ [vcc; gnd])%list
    ∧ GlobalLabel.text vcc = "VCC" ∧ GlobalLabel.text gnd = "GND"
    ∧ (∃ p, DrawnWire.points vcc_wire = [p; p]
            ∧ Position.X p = Position.X (GlobalLabel.position vcc)
            ∧ Position.Y p = Position.Y (GlobalLabel.position vcc))
    ∧ (∃ p, DrawnWire.points gnd_wire = [p; p]
            ∧ Position.X p = Position.X (GlobalLabel.position gnd)
            ∧ Position.Y p = Position.Y (GlobalLabel.position gnd))
    ∧ Schematic.labels (kicad_utils.sch ed) = Schematic.labels d
    ∧ Schematic.junctions (kicad_utils.sch ed) = Schematic.junctions d.
Proof.
  intros target sibling Hfile Hok.
  unfold example_add_led.main. unfold mbind at 1. unfold py_bind at 1.
  unfold kicad_utils.__init__. unfold mbind at 1. unfold py_bind at 1.
  rewrite (from_file_ok (str example_add_led.schematic) d w Hfile Hok). cbn [mret py_ret].
  unfold run_on, example_add_led.edits.
  do 7 py_step.
  set (d' := Schematic.mk _ _ _ _ _).
  set (w7 := World _ _ _ _ _).
  destruct (save_backup_fixed (Session (kicad_utils.mk example_add_led.schematic d') w7))
    as (backup_path & σ' & Hwith & _ & Hsave & Hself & Hfiles);
    [by destruct w as [? ? ? ? []] | discriminate |].
  cbn [self env kicad_utils.path kicad_utils.sch] in Hwith, Hsave, Hself, Hfiles.
  assert (backup_path = pathlib.mk (parent example_add_led.schematic) "holes.bak.kicad_sch")
    as ->.
  { vm_compute in Hwith. by injection Hwith as <-. }
  change (str (pathlib.mk (parent example_add_led.schematic) "holes.bak.kicad_sch"))
    with sibling in Hfiles.
  fold target in Hfiles.
  assert (sibling ≠ target) as Hne.
  { unfold sibling, target, str. intros Heq%(inj (String.append _)). discriminate Heq. }
  rewrite Hsave. rewrite Hself. cbn [self kicad_utils.sch].
  eexists _, _, _, _, _, _, _, _, _. split; [reflexivity|].
  rewrite Hfiles. subst d' w7.
  cbn [files Schematic.schematicSymbols Schematic.wires Schematic.junctions
       Schematic.labels Schematic.globalLabels].
  split_and!;
    first [ done
          | apply lookup_insert_eq
          | by rewrite lookup_insert_ne, lookup_insert_eq
          | by apply has_reference_single
          | by rewrite <- !app_assoc
          | by eexists
          | idtac ].
  intros q Hq Hq'. by rewrite !lookup_insert_ne.
Qed.

Lemma example_add_led_spec_witness :
  let w := quiet_world {[ str example_add_led.schematic := Serialized Schematic.empty ]} None in
  ∃ ed w',
    example_add_led.main w = (Returned (ed, ed), w')
    ∧ files w' !! str example_add_led.schematic = Some (Serialized (kicad_utils.sch ed))
    ∧ length (Schematic.schematicSymbols (kicad_utils.sch ed)) = 2
    ∧ length (Schematic.wires (kicad_utils.sch ed)) = 3.
Proof.
  intros w.
  destruct (example_add_led_spec w Schematic.empty)
    as (ed & w' & led & resistor & wire & vcc_wire & gnd_wire & vcc & gnd
        & Hrun & Htarget & _ & _ & Hsymbols & _ & _ & _ & _ & Hwires & _).
  { apply lookup_singleton_eq. }
  { reflexivity. }
  exists ed, w'. split_and!; [exact Hrun | exact Htarget | by rewrite Hsymbols | by rewrite Hwires].
Defined.
